(** * MSISDNRequestExtractor: a shallow embedding of [data_extractor/extractor.py]

    The development follows the Python source function by function.

    - The [str] values the program computes on as text (URLs, key paths,
      file and column names, header names) are modelled as [string]; a
      character is one of the code points U+0000 .. U+00FF (the type
      [ascii]), and the string methods are those of Python on these code
      points.  The [str] values it only carries, tests with [isdigit] and
      [strip], and encodes (cells, identifiers, header values, the strings
      of a response) are modelled as [ustr] and may hold any code point.
    - Python objects coming out of [response.json()] are the values of
      [value]; a [dict] is an insertion-ordered association list.
    - A call that may raise returns a [result]; statements that touch the
      network or the file system run in the state monad [M] over [World].
    - The libraries the source calls are modelled as far as the source
      depends on them: [urllib3]'s [Retry] and [urlopen], [requests]'
      adapter and session, [urllib.parse]'s [urlencode].  The server, what
      [requests] and [http.client] do to a request before it is sent, the
      files behind [pandas], [urlparse] and the clock are parameters.
    - The [print] calls of the source only write to the console and are left
      out. *)

From Stdlib Require Import String Ascii List ZArith Lia Bool.
From Stdlib Require Import Floats.SpecFloat.
From Equations Require Import Equations.
Import ListNotations.

Local Open Scope string_scope.
Local Open Scope list_scope.
Local Set Warnings "-register-all".

(** ** Exceptions and results *)

Inductive exn : Type :=
| IndexError
| AttributeError
| ValueError (msg : string)
| OSError (msg : string)
| UnicodeEncodeError
| UnicodeDecodeError
| RecursionError
| HTTPError (status : Z)
| ConnectionError
| Timeout
| RetryError
| InvalidSchema
| InvalidURL
| MissingSchema
| InvalidHeader
| TooManyRedirects
| JSONDecodeError
| KeyboardInterrupt.

(** [isinstance(e, Exception)]: everything above but [KeyboardInterrupt],
    which derives from [BaseException] only. *)
Definition is_Exception (e : exn) : bool :=
  match e with
  | KeyboardInterrupt => false
  | _ => true
  end.

Inductive result (A : Type) : Type :=
| Ok (a : A)
| Raise (e : exn).
Arguments Ok {A} a.
Arguments Raise {A} e.

Definition rbind {A B} (r : result A) (k : A -> result B) : result B :=
  match r with
  | Ok a => k a
  | Raise e => Raise e
  end.

Notation "x <-- r ;; k" := (rbind r (fun x => k))
  (at level 61, r at next level, right associativity).

(** [try: body  except Exception: handler] *)
Definition try_except_Exception {A} (body : result A) (handler : result A)
  : result A :=
  match body with
  | Ok a => Ok a
  | Raise e => if is_Exception e then handler else Raise e
  end.

(** ** Strings of any code point

    A character is one of the code points below U+0100, or a code point from
    U+0100 on together with what the Unicode database of the interpreter
    says of it as far as the program asks: whether [str.isdigit] accepts it
    (Numeric_Type Decimal or Digit), whether [str.isspace] does, or
    neither. *)

Inductive uclass : Type := Digit | Space | Neither.

Inductive uchar : Type :=
| Latin (c : ascii)
| Beyond (cp : N) (class : uclass).

Definition ustr : Type := list uchar.

(** A string of code points below U+0100 as a [ustr]. *)
Definition ustr_of_string (s : string) : ustr :=
  map Latin (list_ascii_of_string s).
Coercion ustr_of_string : string >-> ustr.

(** A list of such strings. *)
Definition ustrs (l : list string) : list ustr := map ustr_of_string l.

(** ** Python values *)

Inductive value : Type :=
| VNone
| VBool (b : bool)
| VInt (z : Z)
| VFloat (f : spec_float)
| VStr (s : ustr)
| VList (l : list value)
| VDict (d : list (string * value)).

(** A [dict] with [str] keys: insertion-ordered association list. *)
Definition pydict (V : Type) : Type := list (string * V).
Definition dict : Type := pydict value.

(** Truth value testing, as [if json_data:] performs it. *)
Definition truthy (v : value) : bool :=
  match v with
  | VNone => false
  | VBool b => b
  | VInt z => negb (Z.eqb z 0)
  | VFloat (S754_zero _) => false
  | VFloat _ => true
  | VStr s => match s with [] => false | _ :: _ => true end
  | VList l => match l with [] => false | _ :: _ => true end
  | VDict d => match d with [] => false | _ :: _ => true end
  end.

Fixpoint dict_lookup {V} (d : pydict V) (k : string) : option V :=
  match d with
  | [] => None
  | (k', v) :: d' => if String.eqb k' k then Some v else dict_lookup d' k
  end.

(** [d.get(k)] and [d.get(k, None)] *)
Definition dict_get (d : dict) (k : string) : value :=
  match dict_lookup d k with
  | Some v => v
  | None => VNone
  end.

(** [d[k] = v]: an existing key keeps its position, a new one goes last. *)
Fixpoint dict_set {V} (d : pydict V) (k : string) (v : V) : pydict V :=
  match d with
  | [] => [(k, v)]
  | (k', v') :: d' =>
      if String.eqb k' k then (k', v) :: d' else (k', v') :: dict_set d' k v
  end.

(** [d.update(other)] *)
Definition dict_update {V} (d other : pydict V) : pydict V :=
  fold_left (fun acc kv => dict_set acc (fst kv) (snd kv)) other d.

(** ** Strings *)

(** [s.split(sep)] for a one-character separator. *)
Fixpoint split_on (sep : ascii) (s : string) : list string :=
  match s with
  | EmptyString => [EmptyString]
  | String c s' =>
      if Ascii.eqb c sep then EmptyString :: split_on sep s'
      else match split_on sep s' with
           | [] => [String c EmptyString]
           | p :: ps => String c p :: ps
           end
  end.

Definition code (c : ascii) : N := N_of_ascii c.

Definition in_range (lo hi : N) (c : ascii) : bool :=
  (N.leb lo (code c) && N.leb (code c) hi)%bool.

(** The characters [0] .. [9]. *)
Definition is_decimal_digit (c : ascii) : bool := in_range 48 57 c.

(** The characters [str.isdigit] accepts: Unicode Numeric_Type Decimal or
    Digit.  Below U+0100 these are [0] .. [9] and the superscripts
    U+00B2, U+00B3 and U+00B9. *)
Definition isdigit_char (c : ascii) : bool :=
  (is_decimal_digit c || N.eqb (code c) 178 || N.eqb (code c) 179
   || N.eqb (code c) 185)%bool.

(** The characters [str.isspace] accepts below U+0100. *)
Definition isspace_char (c : ascii) : bool :=
  (in_range 9 13 c || in_range 28 32 c || N.eqb (code c) 133
   || N.eqb (code c) 160)%bool.

Fixpoint all_chars (p : ascii -> bool) (s : string) : bool :=
  match s with
  | EmptyString => true
  | String c s' => (p c && all_chars p s')%bool
  end.

(** The surrogates U+D800 .. U+DFFF: no class of the database holds of
    them, and no codec encodes them. *)
Definition is_surrogate (cp : N) : bool :=
  (N.leb 55296 cp && N.leb cp 57343)%bool.

Definition uchar_isdigit (c : uchar) : bool :=
  match c with
  | Latin a => isdigit_char a
  | Beyond cp Digit => negb (is_surrogate cp)
  | Beyond _ _ => false
  end.

Definition uchar_isspace (c : uchar) : bool :=
  match c with
  | Latin a => isspace_char a
  | Beyond cp Space => negb (is_surrogate cp)
  | Beyond _ _ => false
  end.

(** [s.isdigit()]: at least one character, and all of them digits. *)
Definition isdigit (s : ustr) : bool :=
  match s with
  | [] => false
  | _ :: _ => forallb uchar_isdigit s
  end.

(** A string of decimal digits, as the data model words it. *)
Definition all_decimal_digits (s : string) : bool :=
  match s with
  | EmptyString => false
  | String _ _ => all_chars is_decimal_digit s
  end.

Fixpoint lstrip_by (p : ascii -> bool) (s : string) : string :=
  match s with
  | EmptyString => EmptyString
  | String c s' => if p c then lstrip_by p s' else s
  end.

Fixpoint rstrip_by (p : ascii -> bool) (s : string) : string :=
  match s with
  | EmptyString => EmptyString
  | String c s' =>
      match rstrip_by p s' with
      | EmptyString => if p c then EmptyString else String c EmptyString
      | r => String c r
      end
  end.

(** [s.strip()] *)
Fixpoint lstrip_space (s : ustr) : ustr :=
  match s with
  | [] => []
  | c :: s' => if uchar_isspace c then lstrip_space s' else s
  end.

Fixpoint rstrip_space (s : ustr) : ustr :=
  match s with
  | [] => []
  | c :: s' =>
      match rstrip_space s' with
      | [] => if uchar_isspace c then [] else [c]
      | r => c :: r
      end
  end.

Definition strip (s : ustr) : ustr := rstrip_space (lstrip_space s).

Fixpoint mem_char (c : ascii) (chars : string) : bool :=
  match chars with
  | EmptyString => false
  | String c' chars' => (Ascii.eqb c c' || mem_char c chars')%bool
  end.

(** [s.rstrip(chars)] *)
Definition rstrip (s chars : string) : string :=
  rstrip_by (fun c => mem_char c chars) s.

(** [c.lower()] below U+0100: A-Z, and U+00C0 .. U+00DE but U+00D7. *)
Definition lower_char (c : ascii) : ascii :=
  if (in_range 65 90 c
      || (in_range 192 222 c && negb (N.eqb (code c) 215)))%bool
  then ascii_of_N (code c + 32)
  else c.

Fixpoint lower (s : string) : string :=
  match s with
  | EmptyString => EmptyString
  | String c s' => String (lower_char c) (lower s')
  end.

Definition startswith (s pre : string) : bool := String.prefix pre s.

Fixpoint endswith (s suf : string) : bool :=
  (String.eqb s suf
   || match s with
      | EmptyString => false
      | String _ s' => endswith s' suf
      end)%bool.

(** [s.startswith((p1, p2, ...))] and [s.endswith((p1, p2, ...))] *)
Definition startswith_any (s : string) (pres : list string) : bool :=
  existsb (startswith s) pres.
Definition endswith_any (s : string) (sufs : list string) : bool :=
  existsb (endswith s) sufs.

(** [not s] for a [str] *)
Definition str_falsy (s : string) : bool := String.eqb s EmptyString.
Definition ustr_falsy (s : ustr) : bool :=
  match s with [] => true | _ :: _ => false end.

(** ** Field extractor: [extract_data] and its inner [get_nested_value] *)

(** What one iteration of [for part in parts] leaves behind: either the loop
    goes on with a new [current], or the function returns. *)
Inductive flow : Type :=
| Continue (current : value)
| Return (v : value).

Definition loop_body (current : value) (part : string) : result flow :=
  match current with
  | VList l =>
      if String.eqb part "accountInternalId" then
        match l with
        | [] => Raise IndexError
        | VDict d :: _ => Ok (Continue (dict_get d part))
        | _ :: _ => Raise AttributeError
        end
      else Ok (Return VNone)
  | VDict d => Ok (Continue (dict_get d part))
  | _ => Ok (Return VNone)
  end.

(** [for part in parts: ...] followed by [return current]. *)
Fixpoint walk (current : value) (parts : list string) : result value :=
  match parts with
  | [] => Ok current
  | part :: parts' =>
      f <-- loop_body current part ;;
      match f with
      | Continue current' => walk current' parts'
      | Return v => Ok v
      end
  end.

Definition get_nested_value (obj : value) (key_path : string) : result value :=
  try_except_Exception
    (walk obj (split_on "." key_path))
    (Ok VNone).

(** [for key in keys: result[key] = f(key)] *)
Fixpoint fill_row (f : string -> result value) (keys : list string)
  (row : dict) : result dict :=
  match keys with
  | [] => Ok row
  | key :: keys' =>
      v <-- f key ;;
      fill_row f keys' (dict_set row key v)
  end.

Definition extract_data (json_data : value) (keys : list string)
  (msisdn : ustr) : result dict :=
  let row := [("msisdn", VStr msisdn)] in
  if truthy json_data then fill_row (get_nested_value json_data) keys row
  else fill_row (fun _ => Ok VNone) keys row.

(** The node the loop stands on once the segments [parts] are consumed. *)
Fixpoint reach (current : value) (parts : list string) : result flow :=
  match parts with
  | [] => Ok (Continue current)
  | part :: parts' =>
      f <-- loop_body current part ;;
      match f with
      | Continue current' => reach current' parts'
      | Return v => Ok (Return v)
      end
  end.

(** ** The world: network and file system

    [wire] logs every attempt to send a request, oldest first, the request
    being the one [requests] has prepared; [slept] logs the argument of
    every [time.sleep] of the retry machinery; [written] logs every table
    handed to [to_csv] / [to_excel]. *)

Inductive http_method : Type :=
| GET | HEAD | OPTIONS | PUT | DELETE | TRACE | POST | PATCH.

Definition http_method_eqb (a b : http_method) : bool :=
  match a, b with
  | GET, GET | HEAD, HEAD | OPTIONS, OPTIONS | PUT, PUT | DELETE, DELETE
  | TRACE, TRACE | POST, POST | PATCH, PATCH => true
  | _, _ => false
  end.

Record Request : Type := {
  req_method : http_method;
  req_url : string;
  req_headers : pydict ustr;
  req_verify : bool;
  req_timeout : Z
}.

(** What one transmission yields.  A response carries its status code;
    the seconds of its [Retry-After] header when it has one; when it has a
    [Location] header, the redirect target [requests] reads from it, or
    the exception of reading it ([UnicodeDecodeError] for bytes that are not
    UTF-8); and what reading its body and decoding it with
    [response.json()] gives: a value, or an exception
    ([JSONDecodeError] for a body that is not JSON, [ValueError] for an
    integer literal beyond the digit limit of the interpreter,
    [RecursionError] for nesting beyond its recursion limit, an error of
    [requests] for a body that cannot be read to its end). *)
Inductive wire_outcome : Type :=
| Responded (status_code : Z) (retry_after : option Z)
    (location : option (result string)) (body : result value)
| ConnectFailed
| ReadTimedOut
| ConnectionBroken
| OtherFailed.

Inductive writer : Type := to_csv | to_excel.

Record World : Type := {
  wire : list Request;
  slept : list Z;
  written : list (writer * string * list dict)
}.

Definition M (A : Type) : Type := World -> result A * World.

Definition ret {A} (a : A) : M A := fun w => (Ok a, w).
Definition raise {A} (e : exn) : M A := fun w => (Raise e, w).
Definition bind {A B} (m : M A) (k : A -> M B) : M B :=
  fun w =>
    match m w with
    | (Ok a, w') => k a w'
    | (Raise e, w') => (Raise e, w')
    end.
Definition lift {A} (r : result A) : M A := fun w => (r, w).

Notation "x <- m ;; k" := (bind m (fun x => k))
  (at level 61, m at next level, right associativity).

(** [try: body  except: handler(e)], the handler deciding by the class of
    [e] and re-raising what it does not catch. *)
Definition try_except {A} (body : M A) (handler : exn -> M A) : M A :=
  fun w =>
    match body w with
    | (Ok a, w') => (Ok a, w')
    | (Raise e, w') => handler e w'
    end.

(** [time.sleep(seconds)] *)
Definition sleep (seconds : Z) : M unit :=
  fun w => (Ok tt, {| wire := wire w; slept := slept w ++ [seconds];
                      written := written w |}).

(** ** [urllib3.util.retry.Retry], the policy object [_configure_session]
    builds.  Counters left at [None] are unlimited. *)

Module Retry.

Record t : Type := {
  total : Z;
  connect : option Z;
  read : option Z;
  redirect : option Z;
  status : option Z;
  other : option Z;
  allowed_methods : list http_method;
  status_forcelist : list Z;
  backoff_factor : Z;
  raise_on_status : bool;
  respect_retry_after_header : bool;
  (** one entry per failed attempt: the status code, [None] for an error *)
  history : list (option Z)
}.

Definition RETRY_AFTER_STATUS_CODES : list Z := [413; 429; 503]%Z.
Definition DEFAULT_BACKOFF_MAX : Z := 120.

(** [Retry(total=.., backoff_factor=.., status_forcelist=..,
    allowed_methods=..)], the other arguments at their defaults. *)
Definition new (total backoff_factor : Z) (status_forcelist : list Z)
  (allowed_methods : list http_method) : t :=
  {| total := total; connect := None; read := None; redirect := None;
     status := None; other := None;
     allowed_methods := allowed_methods;
     status_forcelist := status_forcelist;
     backoff_factor := backoff_factor;
     raise_on_status := true;
     respect_retry_after_header := true;
     history := [] |}.

Definition get_backoff_time (r : t) : Z :=
  let consecutive_errors_len := Z.of_nat (length (history r)) in
  if (consecutive_errors_len <=? 1)%Z then 0%Z
  else Z.min DEFAULT_BACKOFF_MAX
         (backoff_factor r * 2 ^ (consecutive_errors_len - 1))%Z.

Definition _is_method_retryable (r : t) (m : http_method) : bool :=
  match allowed_methods r with
  | [] => true
  | allowed => existsb (http_method_eqb m) allowed
  end.

Definition mem_Z (z : Z) (l : list Z) : bool := existsb (Z.eqb z) l.

Definition is_retry (r : t) (m : http_method) (status_code : Z)
  (has_retry_after : bool) : bool :=
  if negb (_is_method_retryable r m) then false
  else if mem_Z status_code (status_forcelist r) then true
  else (negb (total r =? 0)%Z && respect_retry_after_header r
        && has_retry_after && mem_Z status_code RETRY_AFTER_STATUS_CODES)%bool.

(** [filter(None, counts)] drops the [None] and the [0] counters. *)
Definition live_counts (counts : list (option Z)) : list Z :=
  flat_map (fun c => match c with
                     | Some z => if (z =? 0)%Z then [] else [z]
                     | None => []
                     end) counts.

Definition is_exhausted (r : t) : bool :=
  match live_counts [Some (total r); connect r; read r; redirect r;
                     status r; other r] with
  | [] => false
  | c :: cs => (fold_left Z.min cs c <? 0)%Z
  end.

(** What [increment] is told about the attempt that failed: the error
    ([_is_connection_error] holds of [connection_error], [_is_read_error] of
    [read_timeout] and [protocol_error]), or the status of the response. *)
Inductive failure : Type :=
| connection_error
| read_timeout
| protocol_error
| other_error
| bad_status (status_code : Z).

Inductive incremented : Type :=
| Next (r : t)
| MaxRetryError (cause : failure)
| Reraise (cause : failure).

Definition decr (c : option Z) : option Z := option_map Z.pred c.

Definition increment (r : t) (m : http_method) (f : failure) : incremented :=
  let total' := Z.pred (total r) in
  let bump connect' read' status' other' entry :=
    let new_retry :=
      {| total := total'; connect := connect'; read := read';
         redirect := redirect r; status := status'; other := other';
         allowed_methods := allowed_methods r;
         status_forcelist := status_forcelist r;
         backoff_factor := backoff_factor r;
         raise_on_status := raise_on_status r;
         respect_retry_after_header := respect_retry_after_header r;
         history := history r ++ [entry] |} in
    if is_exhausted new_retry then MaxRetryError f else Next new_retry in
  match f with
  | connection_error =>
      bump (decr (connect r)) (read r) (status r) (other r) None
  | read_timeout | protocol_error =>
      if negb (_is_method_retryable r m) then Reraise f
      else bump (connect r) (decr (read r)) (status r) (other r) None
  | other_error =>
      bump (connect r) (read r) (status r) (decr (other r)) None
  | bad_status code =>
      bump (connect r) (read r) (decr (status r)) (other r) (Some code)
  end.

(** [sleep(response)]: the seconds handed to [time.sleep], if any.
    [retry_after] is the response's [Retry-After] header ([None]: no
    response, or no such header). *)
Definition sleep_seconds (r : t) (retry_after : option Z) : option Z :=
  let backoff :=
    let b := get_backoff_time r in
    if (b <=? 0)%Z then None else Some b in
  match retry_after with
  | Some s =>
      if (respect_retry_after_header r && negb (s =? 0)%Z)%bool then Some s
      else backoff
  | None => backoff
  end.

End Retry.

(** ** [urllib3]'s [urlopen] and [requests]' adapter and session *)

Inductive urlopen_result : Type :=
| UResponse (status_code : Z) (location : option (result string))
    (body : result value)
| UMaxRetryError (cause : Retry.failure)
| UError (cause : Retry.failure)
| URaised (e : exn).

(** What [urlopen] does once an attempt is over: return or raise, or go
    round again with the incremented policy after an optional sleep. *)
Inductive verdict : Type :=
| Done (r : urlopen_result)
| Again (retries' : Retry.t) (pause : option Z).

Definition after_error (retries : Retry.t) (m : http_method)
  (f : Retry.failure) : verdict :=
  match Retry.increment retries m f with
  | Retry.Next retries' => Again retries' (Retry.sleep_seconds retries' None)
  | Retry.MaxRetryError cause => Done (UMaxRetryError cause)
  | Retry.Reraise cause => Done (UError cause)
  end.

Definition after_attempt (retries : Retry.t) (m : http_method)
  (out : wire_outcome) : verdict :=
  match out with
  | Responded code retry_after location body =>
      let has_retry_after :=
        match retry_after with Some _ => true | None => false end in
      if Retry.is_retry retries m code has_retry_after then
        match Retry.increment retries m (Retry.bad_status code) with
        | Retry.Next retries' =>
            Again retries' (Retry.sleep_seconds retries' retry_after)
        | Retry.MaxRetryError cause =>
            if Retry.raise_on_status retries then Done (UMaxRetryError cause)
            else Done (UResponse code location body)
        | Retry.Reraise cause => Done (UError cause)
        end
      else Done (UResponse code location body)
  | ConnectFailed => after_error retries m Retry.connection_error
  | ReadTimedOut => after_error retries m Retry.read_timeout
  | ConnectionBroken => after_error retries m Retry.protocol_error
  | OtherFailed => after_error retries m Retry.other_error
  end.

(** How an attempt ends: with what the network yields, or, before anything
    is sent, with an exception of [http.client] that [urllib3] does not
    catch. *)
Inductive attempted : Type :=
| Answered (out : wire_outcome)
| NotSent (e : exn).

Definition after (retries : Retry.t) (m : http_method) (a : attempted)
  : verdict :=
  match a with
  | Answered out => after_attempt retries m out
  | NotSent e => Done (URaised e)
  end.

Definition pause_for (pause : option Z) (w : World) : World :=
  match pause with
  | Some seconds => snd (sleep seconds w)
  | None => w
  end.

(** Termination of [urlopen]: a round that goes on has used up one of
    [total], and [total] has not gone below zero. *)

Lemma fold_left_min_le (cs : list Z) (c : Z) : (fold_left Z.min cs c <= c)%Z.
Proof.
  revert c. induction cs as [|x cs IH]; intro c; simpl; [lia|].
  specialize (IH (Z.min c x)). lia.
Qed.

Lemma not_exhausted_total (r : Retry.t) :
  Retry.is_exhausted r = false -> (0 <= Retry.total r)%Z.
Proof.
  unfold Retry.is_exhausted. simpl.
  destruct (Retry.total r =? 0)%Z eqn:E0; [lia|]. simpl.
  intro H. apply Z.ltb_ge in H.
  pose proof (fold_left_min_le
    (Retry.live_counts [Retry.connect r; Retry.read r; Retry.redirect r;
                        Retry.status r; Retry.other r]) (Retry.total r)) as L.
  unfold Retry.live_counts in L. simpl in L. lia.
Qed.

Lemma increment_Next (r r' : Retry.t) m f :
  Retry.increment r m f = Retry.Next r' ->
  (Retry.total r' = Retry.total r - 1 /\ 0 <= Retry.total r')%Z.
Proof.
  unfold Retry.increment.
  destruct f; try destruct (negb (Retry._is_method_retryable r m));
    try discriminate;
    match goal with
    | |- (if Retry.is_exhausted ?n then _ else _) = _ -> _ =>
        destruct (Retry.is_exhausted n) eqn:E; [discriminate|];
        intro H; injection H as <-;
        apply not_exhausted_total in E; simpl in *; lia
    end.
Qed.

Lemma after_attempt_Again retries m out retries' pause :
  after_attempt retries m out = Again retries' pause ->
  (Retry.total retries' = Retry.total retries - 1 /\
   0 <= Retry.total retries')%Z.
Proof.
  unfold after_attempt, after_error.
  destruct out as [code ra loc body| | | |];
    try destruct (Retry.is_retry _ _ _ _); try discriminate;
    match goal with
    | |- match Retry.increment ?r ?m ?f with _ => _ end = _ -> _ =>
        destruct (Retry.increment r m f) eqn:E; try discriminate;
        try (destruct (Retry.raise_on_status _); discriminate);
        intro H; injection H as <- _; exact (increment_Next _ _ _ _ E)
    end.
Qed.

Lemma after_Again retries m a retries' pause :
  after retries m a = Again retries' pause ->
  (Retry.total retries' = Retry.total retries - 1 /\
   0 <= Retry.total retries')%Z.
Proof.
  destruct a as [out|e]; simpl; [apply after_attempt_Again | discriminate].
Qed.

(** Keeps the equation [x = y] when matching on [x]. *)
Definition inspect {A : Type} (x : A) : {y : A | x = y} := exist _ x eq_refl.

(** ** [urllib.parse]: [quote_plus] and [urlencode] *)

Definition hex_digit (n : N) : ascii :=
  if (n <? 10)%N then ascii_of_N (48 + n) else ascii_of_N (55 + n).

Definition percent (byte : N) : string :=
  String "%" (String (hex_digit (byte / 16))
                (String (hex_digit (byte mod 16)) EmptyString)).

(** Letters, digits and [_.-~] are never quoted. *)
Definition always_safe (c : ascii) : bool :=
  (in_range 65 90 c || in_range 97 122 c || in_range 48 57 c
   || mem_char c "_.-~")%bool.

(** The UTF-8 bytes of a code point; [str.encode] raises on a surrogate. *)
Definition utf8 (cp : N) : result (list N) :=
  if (cp <? 128)%N then Ok [cp]
  else if (cp <? 2048)%N then Ok [192 + cp / 64; 128 + cp mod 64]%N
  else if is_surrogate cp then Raise UnicodeEncodeError
  else if (cp <? 65536)%N
  then Ok [224 + cp / 4096; 128 + (cp / 64) mod 64; 128 + cp mod 64]%N
  else Ok [240 + cp / 262144; 128 + (cp / 4096) mod 64;
           128 + (cp / 64) mod 64; 128 + cp mod 64]%N.

(** A space becomes [+]; any other character is percent-encoded from its
    UTF-8 bytes (two of them from U+0080 on). *)
Definition quote_plus_latin (c : ascii) : string :=
  if always_safe c then String c EmptyString
  else if (code c =? 32)%N then "+"
  else if (code c <? 128)%N then percent (code c)
  else (percent (192 + code c / 64) ++ percent (128 + code c mod 64))%string.

Definition quote_plus_char (c : uchar) : result string :=
  match c with
  | Latin a => Ok (quote_plus_latin a)
  | Beyond cp _ =>
      bytes <-- utf8 cp ;;
      Ok (String.concat EmptyString (map percent bytes))
  end.

Fixpoint quote_plus (s : ustr) : result string :=
  match s with
  | [] => Ok EmptyString
  | c :: s' =>
      q <-- quote_plus_char c ;;
      qs <-- quote_plus s' ;;
      Ok (q ++ qs)%string
  end.

(** [name=value] for each parameter in turn. *)
Fixpoint urlencode_pairs (params : pydict ustr) : result (list string) :=
  match params with
  | [] => Ok []
  | (k, v) :: params' =>
      qk <-- quote_plus k ;;
      qv <-- quote_plus v ;;
      rest <-- urlencode_pairs params' ;;
      Ok ((qk ++ "=" ++ qv)%string :: rest)
  end.

Definition urlencode (params : pydict ustr) : result string :=
  pairs <-- urlencode_pairs params ;;
  Ok (String.concat "&" pairs).

(** ** Exception classes of the [except] clauses of [make_request] *)

Definition is_HTTPError (e : exn) : bool :=
  match e with HTTPError _ => true | _ => false end.
Definition is_ConnectionError (e : exn) : bool :=
  match e with ConnectionError => true | _ => false end.
Definition is_Timeout (e : exn) : bool :=
  match e with Timeout => true | _ => false end.
Definition is_RequestException (e : exn) : bool :=
  match e with
  | HTTPError _ | ConnectionError | Timeout | RetryError | InvalidSchema
  | InvalidURL | MissingSchema | InvalidHeader | TooManyRedirects
  | JSONDecodeError => true
  | _ => false
  end.
Definition is_JSONDecodeError (e : exn) : bool :=
  match e with JSONDecodeError => true | _ => false end.

(** ** [requests]: responses, sessions and adapters *)

Record Response : Type := {
  status_code : Z;
  location : option (result string);
  json_body : result value
}.

Definition raise_for_status (r : Response) : result unit :=
  if ((400 <=? status_code r) && (status_code r <? 600))%Z
  then Raise (HTTPError (status_code r))
  else Ok tt.

(** [response.json()] *)
Definition json (r : Response) : result value := json_body r.

(** The status codes after which [requests] follows a [Location] header. *)
Definition REDIRECT_STATI : list Z := [301; 302; 303; 307; 308]%Z.

(** [get_redirect_target(resp)]: the target of a response that is a
    redirect, [None] for any other. *)
Definition get_redirect_target (r : Response) : result (option string) :=
  match location r with
  | Some target =>
      if Retry.mem_Z (status_code r) REDIRECT_STATI
      then url <-- target ;; Ok (Some url)
      else Ok None
  | None => Ok None
  end.

(** The redirects [requests] follows at most. *)
Definition max_redirects : nat := 30.

(** A session: its mounted adapters, each one known by its retry policy. *)
Record Session : Type := {
  adapters : pydict Retry.t
}.

(** [session.mount(prefix, adapter)]: set the entry, then move the shorter
    prefixes behind it. *)
Definition mount (s : Session) (pre : string) (adapter : Retry.t) : Session :=
  let set := dict_set (adapters s) pre adapter in
  let shorter (kv : string * Retry.t) :=
    Nat.ltb (String.length (fst kv)) (String.length pre) in
  {| adapters := filter (fun kv => negb (shorter kv)) set ++ filter shorter set |}.

Fixpoint find_adapter (l : pydict Retry.t) (url : string) : result Retry.t :=
  match l with
  | [] => Raise InvalidSchema
  | (pre, adapter) :: l' =>
      if startswith (lower url) (lower pre) then Ok adapter
      else find_adapter l' url
  end.

Definition get_adapter (s : Session) (url : string) : result Retry.t :=
  find_adapter (adapters s) url.

(** ** The extractor object *)

Record MSISDNRequestExtractor : Type := {
  base_url : string;
  headers : pydict ustr;
  session : Session
}.

(** ** What the libraries do to a request before it is sent

    [prepare_request]: [Session.prepare_request], from the requests the
    world has seen, the URL and the headers handed to [session.get]: the
    URL and the headers of the request [requests] will send (the URL
    requoted, the headers merged with those of the session and with its
    cookies), or the exception it raises ([InvalidURL] for a URL without a
    host, [InvalidHeader], ...).

    [redirect_request]: the method, URL and headers with which
    [resolve_redirects] goes on from a request to the target of a redirect
    with this status, or the exception of building them.

    [putheaders]: [http.client]'s writing of the header lines when
    [urllib3] hands it the request: it raises [UnicodeEncodeError] for a
    header name outside ASCII or a value with a character from U+0100 on,
    and [ValueError] for a name or value that is no legal header. *)
Record HttpStack : Type := {
  prepare_request :
    list Request -> string -> pydict ustr -> result (string * pydict ustr);
  redirect_request :
    list Request -> Request -> Z -> string
    -> result (http_method * string * pydict ustr);
  putheaders : pydict ustr -> result unit
}.

(** What [urlparse] returns, as far as [_validate_url] reads it. *)
Record ParseResult : Type := {
  scheme : string;
  netloc : string
}.

Section Program.

(** The outside world the program talks to. *)

(** The server: what it answers to a request, given all requests so far. *)
Variable server : list Request -> Request -> wire_outcome.

(** [requests] and [http.client] on a request that is not yet sent. *)
Variable stack : HttpStack.

(** One attempt.  When [http.client] can write the request, the server is
    asked and the attempt logged.  When it cannot, its exception ends the
    attempt before anything is sent; under [https] the connection is opened
    before the request is written, so that a connection that fails is met
    first. *)
Definition transmit (req : Request) (w : World) : attempted * World :=
  let sent :=
    {| wire := wire w ++ [req]; slept := slept w; written := written w |} in
  match putheaders stack (req_headers req) with
  | Ok _ => (Answered (server (wire w) req), sent)
  | Raise e =>
      if startswith (lower (req_url req)) "https://" then
        match server (wire w) req with
        | ConnectFailed => (Answered ConnectFailed, sent)
        | _ => (NotSent e, w)
        end
      else (NotSent e, w)
  end.

Equations? urlopen (req : Request) (retries : Retry.t) (w : World)
  : urlopen_result * World by wf (Z.to_nat (Retry.total retries)) lt :=
urlopen req retries w
  with inspect (after retries (req_method req) (fst (transmit req w))) := {
  | exist _ (Done r) _ => (r, snd (transmit req w));
  | exist _ (Again retries' pause) H =>
      urlopen req retries' (pause_for pause (snd (transmit req w))) }.
Proof.
  apply after_Again in H. lia.
Qed.

(** [HTTPAdapter.send]: run [urlopen] under the adapter's policy and turn
    [urllib3]'s errors into those of [requests]; what [urllib3] did not
    catch passes through. *)
Definition send (max_retries : Retry.t) (req : Request) : M Response :=
  fun w =>
    match urlopen req max_retries w with
    | (UResponse code target body, w') =>
        (Ok {| status_code := code; location := target; json_body := body |},
         w')
    | (UMaxRetryError (Retry.bad_status _), w') => (Raise RetryError, w')
    | (UMaxRetryError _, w') => (Raise ConnectionError, w')
    | (UError Retry.read_timeout, w') => (Raise Timeout, w')
    | (UError _, w') => (Raise ConnectionError, w')
    | (URaised e, w') => (Raise e, w')
    end.

(** [Session.send] without the redirects: pick the adapter by the URL of
    the request and let it send. *)
Definition session_send (s : Session) (req : Request) : M Response :=
  adapter <- lift (get_adapter s (req_url req)) ;;
  send adapter req.

(** [resolve_redirects]: while the response is a redirect with a target,
    go on to the target with the request rebuilt for it, [redirects_left]
    times at most. *)
Fixpoint resolve_redirects (redirects_left : nat) (s : Session)
  (req : Request) (r : Response) : M Response :=
  target <- lift (get_redirect_target r) ;;
  match target with
  | None => ret r
  | Some url =>
      if str_falsy url then ret r
      else
        match redirects_left with
        | O => raise TooManyRedirects
        | S redirects_left' =>
            next <- (fun w =>
                       (redirect_request stack (wire w) req (status_code r) url,
                        w)) ;;
            let req' :=
              {| req_method := fst (fst next); req_url := snd (fst next);
                 req_headers := snd next;
                 req_verify := req_verify req;
                 req_timeout := req_timeout req |} in
            r' <- session_send s req' ;;
            resolve_redirects redirects_left' s req' r'
        end
  end.

(** [session.get(url, headers=.., verify=.., timeout=..)], redirects being
    allowed by default. *)
Definition get (s : Session) (url : string) (hdrs : pydict ustr)
  (verify : bool) (timeout : Z) : M Response :=
  prepared <- (fun w => (prepare_request stack (wire w) url hdrs, w)) ;;
  let req :=
    {| req_method := GET; req_url := fst prepared;
       req_headers := snd prepared;
       req_verify := verify; req_timeout := timeout |} in
  r <- session_send s req ;;
  resolve_redirects max_redirects s req r.

(** [urllib.parse.urlparse], as far as the scheme and the network location
    go; it raises [ValueError] on what it cannot parse. *)
Variable urlparse : string -> result ParseResult.

Definition _validate_url (url : string) : result string :=
  let url := rstrip url "&?" in
  parsed <-- urlparse url ;;
  if negb (forallb (fun part => negb (str_falsy part))
             [scheme parsed; netloc parsed])
  then Raise (ValueError
                "Invalid URL format. Must include scheme (http/https) and domain.")
  else if negb (startswith_any url ["http://"; "https://"])
  then Raise (ValueError "URL must start with 'http://' or 'https://'")
  else Ok url.

Definition retry_strategy : Retry.t :=
  Retry.new 3 1 [500; 502; 503; 504]%Z [GET; HEAD; OPTIONS].

(** [requests.Session()] comes with adapters of its own under the two
    prefixes mounted here; both are replaced, so it starts empty. *)
Definition _configure_session : Session :=
  let session := {| adapters := [] |} in
  let session := mount session "http://" retry_strategy in
  let session := mount session "https://" retry_strategy in
  session.

Definition default_headers : pydict ustr :=
  dict_update []
    [("Content-Type", "application/json" : ustr);
     ("Accept", "application/json" : ustr);
     ("User-Agent", "PostmanRuntime/7.28.4" : ustr);
     ("Accept", "*/*" : ustr);
     ("Accept-Encoding", "gzip, deflate, br" : ustr);
     ("Connection", "keep-alive" : ustr)].

(** [MSISDNRequestExtractor(base_url, headers)]; it runs in [M] although it
    leaves the world alone. *)
Definition __init__ (base_url : string) (headers : option (pydict ustr))
  : M MSISDNRequestExtractor :=
  url <- lift (_validate_url base_url) ;;
  let default_headers :=
    match headers with
    | Some (h :: hs) => dict_update default_headers (h :: hs)
    | _ => default_headers
    end in
  ret {| base_url := url; headers := default_headers;
         session := _configure_session |}.

Definition make_request (self : MSISDNRequestExtractor) (msisdn : ustr)
  : M value :=
  if (ustr_falsy msisdn || negb (isdigit msisdn))%bool then ret VNone
  else
    try_except
      (let params := [("is-personal-details-embedded", "true" : ustr);
                      ("msisdn", msisdn)] in
       query <- lift (urlencode params) ;;
       let url := (base_url self ++ "?" ++ query)%string in
       let headers := dict_set (headers self) "Msisdn" msisdn in
       response <- get (session self) url headers false 30 ;;
       _ <- lift (raise_for_status response) ;;
       lift (json response))
      (fun e =>
         if is_HTTPError e then ret VNone
         else if is_ConnectionError e then ret VNone
         else if is_Timeout e then ret VNone
         else if is_RequestException e then ret VNone
         else if is_JSONDecodeError e then ret VNone
         else raise e).

(** ** Tabular reader *)

(** The cells of a table, and [astype(str)] on them. *)
Variable Cell : Type.
Variable astype_str : Cell -> ustr.

(** A table: its columns by name, each one the cells of its rows. *)
Definition DataFrame : Type := pydict (list Cell).

(** [pd.read_csv] and [pd.read_excel] on the files of the run. *)
Variable read_csv read_excel : string -> result DataFrame.

(** The table behind [input_file], by its extension. *)
Definition read_table (input_file : string) : result DataFrame :=
  if endswith (lower input_file) ".csv" then read_csv input_file
  else if endswith_any (lower input_file) [".xlsx"; ".xls"]
  then read_excel input_file
  else Raise (ValueError "Unsupported file format. Use CSV or Excel files.").

Definition read_msisdns (input_file msisdn_column : string)
  : result (list ustr) :=
  if (str_falsy input_file || str_falsy msisdn_column)%bool
  then Raise (ValueError "Input file path and MSISDN column name are required")
  else
    df <-- read_table input_file ;;
    match dict_lookup df msisdn_column with
    | None =>
        Raise (ValueError
                 ("Column '" ++ msisdn_column ++ "' not found in the file"))
    | Some column =>
        let msisdns := map (fun cell => strip (astype_str cell)) column in
        let valid_msisdns := filter isdigit msisdns in
        match valid_msisdns with
        | [] => Raise (ValueError "No valid MSISDNs found in the file")
        | _ :: _ => Ok valid_msisdns
        end
    end.

(** ** Batch orchestrator *)

(** [datetime.now().strftime("%Y%m%d_%H%M%S")] *)
Variable timestamp : string.

(** Whether the file system lets a table be written at a path. *)
Variable disk : writer -> string -> result unit.

Definition write (how : writer) (output_file : string) (rows : list dict)
  : M unit :=
  _ <- lift (disk how output_file) ;;
  fun w => (Ok tt, {| wire := wire w; slept := slept w;
                      written := written w ++ [(how, output_file, rows)] |}).

(** [for idx, msisdn in enumerate(msisdns, 1): ...] *)
Fixpoint process_loop (self : MSISDNRequestExtractor)
  (keys_to_extract : list string) (msisdns : list ustr)
  (results : list dict) : M (list dict) :=
  match msisdns with
  | [] => ret results
  | msisdn :: msisdns' =>
      json_data <- make_request self msisdn ;;
      extracted_data <- lift (extract_data json_data keys_to_extract msisdn) ;;
      process_loop self keys_to_extract msisdns' (results ++ [extracted_data])
  end.

Definition process_all_msisdns (self : MSISDNRequestExtractor)
  (input_file msisdn_column : string) (keys_to_extract : list string)
  (output_file : option string) : M unit :=
  msisdns <- lift (read_msisdns input_file msisdn_column) ;;
  results <- process_loop self keys_to_extract msisdns [] ;;
  let output_file :=
    match output_file with
    | Some f => if str_falsy f
                then ("extracted_data_" ++ timestamp ++ ".csv")%string else f
    | None => ("extracted_data_" ++ timestamp ++ ".csv")%string
    end in
  if endswith (lower output_file) ".csv" then write to_csv output_file results
  else if endswith_any (lower output_file) [".xlsx"; ".xls"]
  then write to_excel output_file results
  else write to_csv (output_file ++ ".csv")%string results.

End Program.

(** ** A platform to run the program on

    A model of [urllib.parse.urlparse] for the scheme and the network
    location of a URL, after CPython's [urlsplit]: leading control characters
    and spaces are stripped, tabs and line breaks removed, the scheme is what
    stands before the first colon when it starts with a letter and holds
    scheme characters only, the network location is what follows [//] up to
    the first of [/?#].  Unbalanced square brackets in the network location
    raise [ValueError]; a bracketed host is not validated further. *)

Fixpoint remove_chars (p : ascii -> bool) (s : string) : string :=
  match s with
  | EmptyString => EmptyString
  | String c s' => if p c then remove_chars p s' else String c (remove_chars p s')
  end.

(** What stands before the first character satisfying [p], and the string
    from that character on when there is one. *)
Fixpoint break_on (p : ascii -> bool) (s : string) : string * option string :=
  match s with
  | EmptyString => (EmptyString, None)
  | String c s' =>
      if p c then (EmptyString, Some s)
      else let (before, from) := break_on p s' in (String c before, from)
  end.

Definition is_ascii_letter (c : ascii) : bool :=
  (in_range 65 90 c || in_range 97 122 c)%bool.

Definition is_scheme_char (c : ascii) : bool :=
  (is_ascii_letter c || in_range 48 57 c || mem_char c "+-.")%bool.

Definition split_scheme (url : string) : string * string :=
  match break_on (Ascii.eqb ":") url with
  | (String c before, Some (String _ rest)) =>
      if (is_ascii_letter c && all_chars is_scheme_char (String c before))%bool
      then (lower (String c before), rest)
      else (EmptyString, url)
  | _ => (EmptyString, url)
  end.

Definition urlparse_model (url : string) : result ParseResult :=
  let url := lstrip_by (in_range 0 32) url in
  let url := remove_chars (fun c => mem_char c (String "009" (String "010"
                                       (String "013" EmptyString)))) url in
  let (scheme, url) := split_scheme url in
  match url with
  | String "/" (String "/" rest) =>
      let netloc := fst (break_on (fun c => mem_char c "/?#") rest) in
      if xorb (negb (all_chars (fun c => negb (Ascii.eqb c "[")) netloc))
              (negb (all_chars (fun c => negb (Ascii.eqb c "]")) netloc))
      then Raise (ValueError "Invalid IPv6 URL")
      else Ok {| scheme := scheme; netloc := netloc |}
  | _ => Ok {| scheme := scheme; netloc := EmptyString |}
  end.

(** A world in which nothing has happened yet. *)
Definition fresh_world : World := {| wire := []; slept := []; written := [] |}.

(** The string made of the one character U+00B2, superscript two. *)
Definition superscript_two : string := String (ascii_of_N 178) EmptyString.

(** The identifier made of the Arabic-Indic digits U+0661, U+0662, U+0663. *)
Definition arabic_indic_123 : ustr :=
  [Beyond 1633 Digit; Beyond 1634 Digit; Beyond 1635 Digit].

(** *** The libraries below [session.get]

    [requests] 2.32 with a session that is fresh (no cookie, no
    credentials, no proxy), on a URL that is in its normal form already
    (lower case, a registered name as host, a port without leading zeros
    when there is a colon for one, no dot segment, nothing to quote), and
    [http.client] of CPython 3.11. *)

Definition session_headers : pydict ustr :=
  [("User-Agent", "python-requests/2.32.3" : ustr);
   ("Accept-Encoding", "gzip, deflate" : ustr);
   ("Accept", "*/*" : ustr);
   ("Connection", "keep-alive" : ustr)].

(** [CaseInsensitiveDict.__setitem__]: the entry keeps its place and takes
    the new spelling of the name. *)
Fixpoint ci_set (d : pydict ustr) (k : string) (v : ustr) : pydict ustr :=
  match d with
  | [] => [(k, v)]
  | (k', v') :: d' =>
      if String.eqb (lower k') (lower k) then (k, v) :: d'
      else (k', v') :: ci_set d' k v
  end.

Fixpoint ci_pop (d : pydict ustr) (k : string) : pydict ustr :=
  match d with
  | [] => []
  | (k', v') :: d' =>
      if String.eqb (lower k') (lower k) then d' else (k', v') :: ci_pop d' k
  end.

(** The headers of the session, updated with those of the request. *)
Definition merge_headers (request_headers : pydict ustr) : pydict ustr :=
  fold_left (fun acc kv => ci_set acc (fst kv) (snd kv))
    request_headers session_headers.

(** What follows the last [@] of a network location. *)
Fixpoint after_last_at (netloc : string) : string :=
  match netloc with
  | EmptyString => EmptyString
  | String c rest =>
      if (Ascii.eqb c "@" || mem_char "@" rest)%bool then after_last_at rest
      else netloc
  end.

(** [prepare_url]: a URL with a colon that does not start with [http] is
    left alone; any other needs a scheme and a host, and gets the path [/]
    when it has none. *)
Definition prepare_url_model (url : string) : result string :=
  let url := lstrip_by isspace_char url in
  if (mem_char ":" url && negb (startswith (lower url) "http"))%bool
  then Ok url
  else
    match split_scheme url with
    | (EmptyString, _) => Raise MissingSchema
    | (scheme, String "/" (String "/" rest)) =>
        let (netloc, tail) := break_on (fun c => mem_char c "/?#") rest in
        let host_port := after_last_at netloc in
        let (host, port) :=
          if startswith host_port "[" then (host_port, None)
          else break_on (Ascii.eqb ":") host_port in
        let port_ok :=
          match port with
          | Some (String _ digits) => all_chars is_decimal_digit digits
          | _ => true
          end in
        if (str_falsy host || startswith_any host ["*"; "."]
            || negb port_ok)%bool
        then Raise InvalidURL
        else
          let path_on :=
            match tail with
            | None => "/"
            | Some t => if startswith t "/" then t else ("/" ++ t)%string
            end in
          Ok (scheme ++ "://" ++ netloc ++ path_on)%string
    | _ => Raise InvalidURL
    end.

Definition prepare_request_model (_ : list Request) (url : string)
  (hdrs : pydict ustr) : result (string * pydict ustr) :=
  url' <-- prepare_url_model url ;;
  Ok (url', merge_headers hdrs).

(** [resolve_redirects] on an absolute target: the method as
    [rebuild_method] leaves it, and the headers without those of the body
    unless the status is 307 or 308, and without [Cookie]. *)
Definition redirect_request_model (_ : list Request) (req : Request)
  (status : Z) (url : string) : result (http_method * string * pydict ustr) :=
  let m :=
    match req_method req with
    | HEAD => HEAD
    | POST => if Retry.mem_Z status [301; 302; 303]%Z then GET else POST
    | m => if Retry.mem_Z status [302; 303]%Z then GET else m
    end in
  let hdrs :=
    if Retry.mem_Z status [307; 308]%Z then req_headers req
    else ci_pop (ci_pop (ci_pop (req_headers req) "Content-Length")
                   "Content-Type") "Transfer-Encoding" in
  Ok (m, url, ci_pop hdrs "Cookie").

(** The [repr] of a [bytes] object. *)
Definition repr_byte (quote : ascii) (c : ascii) : string :=
  if (Ascii.eqb c quote || Ascii.eqb c "\")%bool
  then String "\" (String c EmptyString)
  else if (code c =? 9)%N then "\t"
  else if (code c =? 10)%N then "\n"
  else if (code c =? 13)%N then "\r"
  else if ((code c <? 32) || (127 <=? code c))%N%bool
  then (String "\" (String "x" EmptyString)
        ++ String (lower_char (hex_digit (code c / 16)))
             (String (lower_char (hex_digit (code c mod 16))) EmptyString))%string
  else String c EmptyString.

Definition repr_bytes (b : string) : string :=
  let quote :=
    if (mem_char "'" b && negb (mem_char (ascii_of_N 34) b))%bool
    then ascii_of_N 34 else "'"%char in
  (String "b" (String quote EmptyString)
   ++ String.concat EmptyString (map (repr_byte quote) (list_ascii_of_string b))
   ++ String quote EmptyString)%string.

(** The bytes of a [str] in Latin-1, when it has no character from U+0100
    on. *)
Fixpoint latin1 (s : ustr) : option string :=
  match s with
  | [] => Some EmptyString
  | Latin a :: s' => option_map (String a) (latin1 s')
  | Beyond _ _ :: _ => None
  end.

(** A header name: not empty, no colon, no line break, no whitespace in
    front. *)
Definition legal_header_name (name : string) : bool :=
  match name with
  | EmptyString => false
  | String c rest =>
      (negb (mem_char c (String ":" (String " " (String "009" (String "010"
               (String "011" (String "012" (String "013" EmptyString))))))))
       && all_chars (fun c => negb (mem_char c (String ":" (String "010"
                                       (String "013" EmptyString))))) rest)%bool
  end.

(** A header value: a line feed or a carriage return only in front of a
    space or a tab, or a carriage return in front of a line feed. *)
Fixpoint illegal_header_value (value : string) : bool :=
  match value with
  | EmptyString => false
  | String c rest =>
      let next_in (chars : string) :=
        match rest with
        | EmptyString => false
        | String c' _ => mem_char c' chars
        end in
      ((Ascii.eqb c "010" && negb (next_in (String " " (String "009" EmptyString))))
       || (Ascii.eqb c "013"
           && negb (next_in (String " " (String "009" (String "010" EmptyString)))))
       || illegal_header_value rest)%bool
  end.

(** [putheader(name, value)] *)
Definition putheader_model (name : string) (value : ustr) : result unit :=
  if negb (all_chars (in_range 0 127) name) then Raise UnicodeEncodeError
  else if negb (legal_header_name name)
  then Raise (ValueError ("Invalid header name " ++ repr_bytes name))
  else
    match latin1 value with
    | None => Raise UnicodeEncodeError
    | Some bytes =>
        if illegal_header_value bytes
        then Raise (ValueError ("Invalid header value " ++ repr_bytes bytes))
        else Ok tt
    end.

Fixpoint putheaders_model (hdrs : pydict ustr) : result unit :=
  match hdrs with
  | [] => Ok tt
  | (name, value) :: hdrs' =>
      _ <-- putheader_model name value ;;
      putheaders_model hdrs'
  end.

Definition stack_model : HttpStack :=
  {| prepare_request := prepare_request_model;
     redirect_request := redirect_request_model;
     putheaders := putheaders_model |}.

(** * Properties *)

(** ** Dictionaries *)

Lemma dict_lookup_set_same {V} (d : pydict V) k v :
  dict_lookup (dict_set d k v) k = Some v.
Proof.
  induction d as [|[k' v'] d IH]; simpl.
  - now rewrite String.eqb_refl.
  - destruct (String.eqb k' k) eqn:E; simpl; rewrite E; auto.
Qed.

Lemma dict_lookup_set_other {V} (d : pydict V) k k2 v :
  k <> k2 -> dict_lookup (dict_set d k v) k2 = dict_lookup d k2.
Proof.
  intro Hne. induction d as [|[k' v'] d IH]; simpl.
  - destruct (String.eqb k k2) eqn:E; auto.
    apply String.eqb_eq in E. contradiction.
  - destruct (String.eqb k' k) eqn:E; simpl.
    + apply String.eqb_eq in E. subst k'.
      destruct (String.eqb k k2) eqn:E2; auto.
      apply String.eqb_eq in E2. contradiction.
    + now rewrite IH.
Qed.

Lemma dict_set_fresh {V} (d : pydict V) k v :
  ~ In k (map fst d) -> dict_set d k v = d ++ [(k, v)].
Proof.
  induction d as [|[k' v'] d IH]; simpl; intro H; auto.
  destruct (String.eqb k' k) eqn:E.
  - apply String.eqb_eq in E. tauto.
  - f_equal. apply IH. tauto.
Qed.

(** ** [get_nested_value] *)

Lemma loop_body_raises current part e :
  loop_body current part = Raise e -> is_Exception e = true.
Proof.
  unfold loop_body.
  destruct current as [| | | | |l|d]; try discriminate.
  destruct (String.eqb part "accountInternalId"); try discriminate.
  destruct l as [|[| | | | | |] ?]; try discriminate;
    intro H; injection H as <-; reflexivity.
Qed.

Lemma walk_raises parts : forall current e,
  walk current parts = Raise e -> is_Exception e = true.
Proof.
  induction parts as [|part parts IH]; simpl; intros current e; [discriminate|].
  destruct (loop_body current part) as [[c|v]|e'] eqn:E; simpl.
  - apply IH.
  - discriminate.
  - intro H. injection H as <-. eapply loop_body_raises; eauto.
Qed.

(** [get_nested_value] always returns. *)
Lemma get_nested_value_total obj key_path :
  exists v, get_nested_value obj key_path = Ok v.
Proof.
  unfold get_nested_value, try_except_Exception.
  destruct (walk obj (split_on "." key_path)) as [v|e] eqn:E; eauto.
  rewrite (walk_raises _ _ _ E). eauto.
Qed.

(** The loop over [prefix ++ rest] is the loop over [rest] from where the
    loop over [prefix] stands. *)
Lemma walk_app prefix : forall current rest,
  walk current (prefix ++ rest) =
  match reach current prefix with
  | Ok (Continue c) => walk c rest
  | Ok (Return v) => Ok v
  | Raise e => Raise e
  end.
Proof.
  induction prefix as [|p prefix IH]; simpl; intros current rest; auto.
  destruct (loop_body current p) as [[c|v]|e]; simpl; auto.
Qed.

(** From a node that is neither an array nor an object, the walk ends in
    [None] as soon as a segment is left. *)
Definition is_scalar (v : value) : bool :=
  match v with
  | VList _ | VDict _ => false
  | _ => true
  end.

Lemma walk_scalar v seg rest :
  is_scalar v = true -> walk v (seg :: rest) = Ok VNone.
Proof. destruct v; simpl; intro H; try discriminate; reflexivity. Qed.

Lemma walk_None rest : walk VNone rest = Ok VNone.
Proof. destruct rest; reflexivity. Qed.

(** ** [extract_data] *)

Lemma fill_row_total f keys : forall row,
  (forall k, exists v, f k = Ok v) ->
  exists row', fill_row f keys row = Ok row'.
Proof.
  induction keys as [|k keys IH]; simpl; intros row Hf; eauto.
  destruct (Hf k) as [v ->]. simpl. apply IH, Hf.
Qed.

Lemma fill_row_fresh f g keys : forall row,
  NoDup (map fst row ++ keys) ->
  (forall k, In k keys -> f k = Ok (g k)) ->
  fill_row f keys row = Ok (row ++ map (fun k => (k, g k)) keys).
Proof.
  induction keys as [|k keys IH]; simpl; intros row Hnd Hf.
  - now rewrite app_nil_r.
  - rewrite (Hf k) by auto. simpl.
    assert (Hk : ~ In k (map fst row)).
    { intro Hin. apply NoDup_remove_2 in Hnd. apply Hnd.
      apply in_or_app. auto. }
    rewrite (dict_set_fresh _ _ _ Hk).
    rewrite IH.
    + now rewrite <- app_assoc.
    + rewrite map_app, <- app_assoc. exact Hnd.
    + auto.
Qed.

Lemma fill_row_lookup f keys : forall row row',
  fill_row f keys row = Ok row' ->
  (forall k, In k keys -> exists v, f k = Ok v /\ dict_lookup row' k = Some v)
  /\ (forall k, ~ In k keys -> dict_lookup row' k = dict_lookup row k).
Proof.
  induction keys as [|k keys IH]; simpl; intros row row' H.
  - injection H as <-. split; [tauto | auto].
  - destruct (f k) as [v|e] eqn:Ef; simpl in H; [|discriminate].
    destruct (IH _ _ H) as [Hin Hout]. split.
    + intros k2 [<-|Hk2].
      * destruct (in_dec string_dec k keys) as [Hi|Hni].
        -- destruct (Hin k Hi) as [v' [Hv' Hl]]. exists v'. split; auto.
        -- exists v. split; auto.
           rewrite (Hout k Hni). apply dict_lookup_set_same.
      * auto.
    + intros k2 Hk2.
      rewrite Hout by tauto. apply dict_lookup_set_other. tauto.
Qed.

(** What [extract_data] stores under a key path. *)
Definition extracted (json_data : value) (key : string) : value :=
  if truthy json_data then
    match get_nested_value json_data key with
    | Ok v => v
    | Raise _ => VNone
    end
  else VNone.

Lemma extract_data_fresh json_data keys msisdn :
  NoDup ("msisdn" :: keys) ->
  extract_data json_data keys msisdn =
  Ok (("msisdn", VStr msisdn) :: map (fun k => (k, extracted json_data k)) keys).
Proof.
  intro Hnd. unfold extract_data, extracted.
  destruct (truthy json_data).
  - apply (fill_row_fresh _ (fun k => match get_nested_value json_data k with
                                      | Ok v => v | Raise _ => VNone end)
             keys [("msisdn", VStr msisdn)] Hnd).
    intros k _. destruct (get_nested_value_total json_data k) as [v ->].
    reflexivity.
  - apply (fill_row_fresh _ (fun _ => VNone) keys [("msisdn", VStr msisdn)] Hnd).
    reflexivity.
Qed.

Lemma extract_data_total json_data keys msisdn :
  exists row, extract_data json_data keys msisdn = Ok row.
Proof.
  unfold extract_data. destruct (truthy json_data); apply fill_row_total.
  - apply get_nested_value_total.
  - eauto.
Qed.

(** The response of the test suite and of the specification's example. *)
Definition accounts_response : value :=
  VDict [("accounts", VList [VDict [("accountInternalId", VStr "123")]])].

(** C1: when the walk of a key path stands on an array, the segment
    [accountInternalId] takes element 0 and looks the field up on it (the
    walk goes on from that value, and the path is [None] when the array is
    empty, its first element is no object, or the field is absent); any
    other segment makes the path [None] at once.  The example of the
    specification evaluates as stated. *)
Theorem C1_array_segment :
  (forall obj key_path prefix seg rest l,
      split_on "." key_path = prefix ++ seg :: rest ->
      reach obj prefix = Ok (Continue (VList l)) ->
      (seg = "accountInternalId" ->
       match l with
       | [] => get_nested_value obj key_path = Ok VNone
       | VDict d :: _ =>
           get_nested_value obj key_path =
           try_except_Exception (walk (dict_get d "accountInternalId") rest)
             (Ok VNone)
           /\ (dict_lookup d "accountInternalId" = None ->
               get_nested_value obj key_path = Ok VNone)
       | _ :: _ => get_nested_value obj key_path = Ok VNone
       end)
      /\ (seg <> "accountInternalId" ->
          get_nested_value obj key_path = Ok VNone))
  /\ extract_data accounts_response ["accounts.accountInternalId"] "X"
     = Ok [("msisdn", VStr "X"); ("accounts.accountInternalId", VStr "123")].
Proof.
  split; [|reflexivity].
  intros obj key_path prefix seg rest l Hsplit Hreach.
  unfold get_nested_value. rewrite Hsplit, walk_app, Hreach. split.
  - intros ->. simpl.
    destruct l as [|[| | | | | |d] tl]; try reflexivity.
    unfold rbind. split; [reflexivity|].
    intro Habs. unfold dict_get. rewrite Habs, walk_None. reflexivity.
  - intro Hne. simpl.
    destruct (String.eqb seg "accountInternalId") eqn:E; [|reflexivity].
    apply String.eqb_eq in E. contradiction.
Qed.

Lemma C1_array_segment_witness :
  split_on "." "accounts.accountInternalId" = ["accounts"] ++ "accountInternalId" :: []
  /\ reach accounts_response ["accounts"]
     = Ok (Continue (VList [VDict [("accountInternalId", VStr "123")]]))
  /\ get_nested_value accounts_response "accounts.accountInternalId"
     = Ok (VStr "123").
Proof.
  split; [reflexivity|]. split; [reflexivity|].
  exact (proj1 (proj1 (proj1 C1_array_segment accounts_response
                         "accounts.accountInternalId" ["accounts"]
                         "accountInternalId" []
                         [VDict [("accountInternalId", VStr "123")]]
                         eq_refl eq_refl) eq_refl)).
Defined.

(** C2, as it holds of the code: for an absent response every requested key
    path maps to [None], and the [msisdn] field is the identifier provided no
    requested key path is itself the string [msisdn]. *)
Theorem C2_absent_response msisdn keys :
  ~ In "msisdn" keys ->
  exists row,
    extract_data VNone keys msisdn = Ok row
    /\ dict_lookup row "msisdn" = Some (VStr msisdn)
    /\ forall k, In k keys -> dict_lookup row k = Some VNone.
Proof.
  intro Hni. destruct (extract_data_total VNone keys msisdn) as [row Hrow].
  exists row. split; [exact Hrow|].
  unfold extract_data in Hrow. simpl in Hrow.
  destruct (fill_row_lookup _ _ _ _ Hrow) as [Hin Hout]. split.
  - rewrite (Hout _ Hni). reflexivity.
  - intros k Hk. destruct (Hin k Hk) as [v [Hv Hl]].
    injection Hv as <-. exact Hl.
Qed.

Lemma C2_absent_response_witness :
  ~ In "msisdn" ["test.key"]
  /\ exists row,
      extract_data VNone ["test.key"] "1234567890" = Ok row
      /\ dict_lookup row "msisdn" = Some (VStr "1234567890")
      /\ forall k, In k ["test.key"] -> dict_lookup row k = Some VNone.
Proof.
  assert (H : ~ In "msisdn" ["test.key"]).
  { simpl. intros [H|[]]. discriminate H. }
  split; [exact H|]. exact (C2_absent_response "1234567890" ["test.key"] H).
Defined.

(** C2, as stated, fails when [msisdn] is itself a requested key path: the
    identifier is overwritten by [None]. *)
Lemma C2_counterexample :
  ["msisdn"] <> []
  /\ exists row,
      extract_data VNone ["msisdn"] "X" = Ok row
      /\ dict_lookup row "msisdn" <> Some (VStr "X").
Proof.
  split; [discriminate|].
  exists [("msisdn", VNone)]. split; [reflexivity|]. simpl. discriminate.
Qed.

(** C6, as it holds of the code: when the key paths are pairwise distinct and
    none of them is the string [msisdn], the row has exactly [1 + len(keys)]
    fields, in order: [msisdn] with the identifier, then each key path under
    its own literal string with the value extracted for it. *)
Theorem C6_row_shape json_data keys msisdn :
  NoDup ("msisdn" :: keys) ->
  exists row,
    extract_data json_data keys msisdn = Ok row
    /\ length row = 1 + length keys
    /\ map fst row = "msisdn" :: keys
    /\ nth_error row 0 = Some ("msisdn", VStr msisdn)
    /\ forall i key,
        nth_error keys i = Some key ->
        nth_error row (S i) = Some (key, extracted json_data key).
Proof.
  intro Hnd.
  exists (("msisdn", VStr msisdn)
            :: map (fun k => (k, extracted json_data k)) keys).
  split; [apply extract_data_fresh, Hnd|].
  split; [simpl; now rewrite length_map|].
  split; [simpl; f_equal; rewrite map_map; simpl; apply map_id|].
  split; [reflexivity|].
  intros i key Hi. simpl. rewrite nth_error_map, Hi. reflexivity.
Qed.

Lemma C6_row_shape_witness :
  NoDup ["msisdn"; "individualId"; "accounts.accountInternalId"]
  /\ exists row,
      extract_data accounts_response
        ["individualId"; "accounts.accountInternalId"] "X" = Ok row
      /\ length row = 3
      /\ map fst row = ["msisdn"; "individualId"; "accounts.accountInternalId"].
Proof.
  assert (H : NoDup ["msisdn"; "individualId"; "accounts.accountInternalId"]).
  { repeat constructor; simpl; intuition discriminate. }
  split; [exact H|].
  destruct (C6_row_shape accounts_response
              ["individualId"; "accounts.accountInternalId"] "X" H)
    as [row [H1 [H2 [H3 _]]]].
  exists row. auto.
Defined.

(** C6, as stated, fails on a repeated key path: the second assignment
    overwrites the first and the row has fewer fields. *)
Lemma C6_counterexample :
  exists row,
    extract_data VNone ["a"; "a"] "X" = Ok row
    /\ length row <> 1 + length ["a"; "a"].
Proof.
  exists [("msisdn", VStr "X"); ("a", VNone)].
  split; [reflexivity|]. simpl. discriminate.
Qed.

(** C7: [extract_data] always returns a row; a key path whose walk raises,
    or meets a node that is neither an array nor an object while a segment
    is left, resolves to [None]; the example of the specification evaluates
    as stated. *)
Theorem C7_never_raises :
  (forall json_data keys msisdn,
      exists row, extract_data json_data keys msisdn = Ok row)
  /\ (forall obj key_path e,
         walk obj (split_on "." key_path) = Raise e ->
         get_nested_value obj key_path = Ok VNone)
  /\ (forall obj key_path prefix seg rest v,
         split_on "." key_path = prefix ++ seg :: rest ->
         reach obj prefix = Ok (Continue v) ->
         is_scalar v = true ->
         get_nested_value obj key_path = Ok VNone)
  /\ extract_data (VDict [("a", VDict [("b", VInt 5)])]) ["a.b.c"] "X"
     = Ok [("msisdn", VStr "X"); ("a.b.c", VNone)].
Proof.
  split; [exact extract_data_total|].
  split; [|split; [|reflexivity]].
  - intros obj key_path e H. unfold get_nested_value, try_except_Exception.
    rewrite H, (walk_raises _ _ _ H). reflexivity.
  - intros obj key_path prefix seg rest v Hsplit Hreach Hv.
    unfold get_nested_value.
    rewrite Hsplit, walk_app, Hreach, (walk_scalar _ _ _ Hv). reflexivity.
Qed.

Lemma C7_never_raises_witness :
  walk (VDict [("accounts", VList [])])
       (split_on "." "accounts.accountInternalId") = Raise IndexError
  /\ get_nested_value (VDict [("accounts", VList [])])
       "accounts.accountInternalId" = Ok VNone.
Proof.
  split; [reflexivity|].
  exact (proj1 (proj2 C7_never_raises) (VDict [("accounts", VList [])])
           "accounts.accountInternalId" IndexError eq_refl).
Defined.

(** C10: a response that is present but falsy gives the very row of an
    absent response, every requested key path being [None] without a lookup
    in the response. *)
Theorem C10_falsy_response json_data keys msisdn :
  truthy json_data = false ->
  extract_data json_data keys msisdn = extract_data VNone keys msisdn
  /\ extract_data json_data keys msisdn
     = fill_row (fun _ => Ok VNone) keys [("msisdn", VStr msisdn)]
  /\ exists row,
      extract_data json_data keys msisdn = Ok row
      /\ forall k, In k keys -> dict_lookup row k = Some VNone.
Proof.
  intro Hf. unfold extract_data. rewrite Hf. simpl.
  split; [reflexivity|]. split; [reflexivity|].
  destruct (fill_row_total (fun _ => Ok VNone) keys [("msisdn", VStr msisdn)])
    as [row Hrow]; [eauto|].
  exists row. split; [exact Hrow|].
  intros k Hk. destruct (fill_row_lookup _ _ _ _ Hrow) as [Hin _].
  destruct (Hin k Hk) as [v [Hv Hl]]. injection Hv as <-. exact Hl.
Qed.

Lemma C10_falsy_response_witness :
  (truthy (VDict []) = false /\ truthy (VList []) = false
   /\ truthy (VInt 0) = false)
  /\ extract_data (VDict []) ["a"; "b.c"] "X" = extract_data VNone ["a"; "b.c"] "X"
  /\ extract_data (VList []) ["a"; "b.c"] "X" = extract_data VNone ["a"; "b.c"] "X"
  /\ extract_data (VInt 0) ["a"; "b.c"] "X" = extract_data VNone ["a"; "b.c"] "X".
Proof.
  split; [repeat split|].
  split; [|split].
  - exact (proj1 (C10_falsy_response (VDict []) ["a"; "b.c"] "X" eq_refl)).
  - exact (proj1 (C10_falsy_response (VList []) ["a"; "b.c"] "X" eq_refl)).
  - exact (proj1 (C10_falsy_response (VInt 0) ["a"; "b.c"] "X" eq_refl)).
Defined.

(** ** URL validation and construction *)

(** The parsed parts [_validate_url] tests, on the string it parses. *)
Definition parsed_of (urlparse : string -> result ParseResult) (url : string)
  : result ParseResult :=
  urlparse (rstrip url "&?").

(** C3, as it holds of the code: construction fails with [ValueError], leaving
    the world untouched, for every base URL that parses with an empty scheme
    or an empty network location; it succeeds, storing the URL without its
    trailing [&] and [?], for every base URL that without them parses with
    both parts non-empty and starts with [http://] or [https://]. *)
Theorem C3_url_validation (urlparse : string -> result ParseResult)
  (url : string) (hdrs : option (pydict ustr)) (parsed : ParseResult)
  (w : World) :
  parsed_of urlparse url = Ok parsed ->
  (scheme parsed = EmptyString \/ netloc parsed = EmptyString ->
   exists msg, __init__ urlparse url hdrs w = (Raise (ValueError msg), w))
  /\ (scheme parsed <> EmptyString ->
      netloc parsed <> EmptyString ->
      startswith_any (rstrip url "&?") ["http://"; "https://"] = true ->
      exists self,
        __init__ urlparse url hdrs w = (Ok self, w)
        /\ base_url self = rstrip url "&?").
Proof.
  unfold parsed_of. intro Hp.
  unfold __init__, bind, lift, _validate_url. rewrite Hp. simpl.
  unfold str_falsy. split.
  - intros [-> | ->]; simpl.
    + eauto.
    + destruct (String.eqb (scheme parsed) EmptyString); simpl; eauto.
  - intros Hs Hn Hpre.
    apply String.eqb_neq in Hs, Hn. rewrite Hs, Hn. simpl.
    simpl in Hpre. rewrite Hpre. simpl.
    unfold ret. eauto.
Qed.

Lemma C3_url_validation_witness :
  (parsed_of urlparse_model "invalid-url"
   = Ok {| scheme := EmptyString; netloc := EmptyString |}
   /\ exists msg,
       __init__ urlparse_model "invalid-url" None fresh_world
       = (Raise (ValueError msg), fresh_world))
  /\ (parsed_of urlparse_model "https://example.com/api?"
      = Ok {| scheme := "https"; netloc := "example.com" |}
      /\ exists self,
          __init__ urlparse_model "https://example.com/api?" None fresh_world
          = (Ok self, fresh_world)
          /\ base_url self = "https://example.com/api").
Proof.
  split; (split; [reflexivity|]).
  - exact (proj1 (C3_url_validation urlparse_model "invalid-url" None
                    {| scheme := EmptyString; netloc := EmptyString |}
                    fresh_world eq_refl) (or_introl eq_refl)).
  - refine (proj2 (C3_url_validation urlparse_model "https://example.com/api?"
                     None {| scheme := "https"; netloc := "example.com" |}
                     fresh_world eq_refl) _ _ eq_refl); discriminate.
Defined.

(** C3, as stated, fails on a well-formed [scheme://host] URL whose scheme
    is not [http] or [https]: construction raises. *)
Lemma C3_counterexample :
  parsed_of urlparse_model "ftp://example.com"
  = Ok {| scheme := "ftp"; netloc := "example.com" |}
  /\ __init__ urlparse_model "ftp://example.com" None fresh_world
     = (Raise (ValueError "URL must start with 'http://' or 'https://'"),
        fresh_world).
Proof. split; reflexivity. Qed.

(** ** Identifier validation in [make_request] *)

Lemma all_chars_false p s :
  all_chars p s = false <->
  exists c, In c (list_ascii_of_string s) /\ p c = false.
Proof.
  induction s as [|c s IH]; simpl.
  - split; [discriminate | intros [c [[] _]]].
  - rewrite andb_false_iff, IH. split.
    + intros [Hc | [c' [Hin Hc']]]; eauto.
    + intros [c' [[<- | Hin] Hc']]; eauto.
Qed.


(** The characters of a [string], as characters of a [ustr]. *)
Lemma In_ustr_of_string c (s : string) :
  In c (list_ascii_of_string s) -> In (Latin c) (ustr_of_string s).
Proof. unfold ustr_of_string. apply in_map. Qed.

(** The extractor the test suite builds. *)
Definition example_extractor : MSISDNRequestExtractor :=
  {| base_url := "https://example.com/api";
     headers := default_headers;
     session := _configure_session |}.




(** ** The retry policy *)

(** One round of [urlopen]. *)
Lemma urlopen_round server stack req retries w :
  urlopen server stack req retries w =
  match after retries (req_method req) (fst (transmit server stack req w)) with
  | Done r => (r, snd (transmit server stack req w))
  | Again retries' pause =>
      urlopen server stack req retries'
        (pause_for pause (snd (transmit server stack req w)))
  end.
Proof.
  funelim (urlopen server stack req retries w);
    match goal with
    | E : after _ _ _ = _ |- _ => rewrite E; reflexivity
    end.
Qed.

(** An attempt with headers [http.client] can write asks the server. *)
Lemma transmit_sendable server stack req w :
  putheaders stack (req_headers req) = Ok tt ->
  transmit server stack req w
  = (Answered (server (wire w) req),
     {| wire := wire w ++ [req]; slept := slept w; written := written w |}).
Proof. unfold transmit. intros ->. reflexivity. Qed.

(** The policy of [_configure_session] once [3 - t] retries are spent. *)
Definition policy (t : Z) (hist : list (option Z)) : Retry.t :=
  {| Retry.total := t; Retry.connect := None; Retry.read := None;
     Retry.redirect := None; Retry.status := None; Retry.other := None;
     Retry.allowed_methods := [GET; HEAD; OPTIONS];
     Retry.status_forcelist := [500; 502; 503; 504]%Z;
     Retry.backoff_factor := 1;
     Retry.raise_on_status := true;
     Retry.respect_retry_after_header := true;
     Retry.history := hist |}.

Definition allowed (m : http_method) : bool :=
  existsb (http_method_eqb m) [GET; HEAD; OPTIONS].

Definition retry_after_of (out : wire_outcome) : option Z :=
  match out with
  | Responded _ retry_after _ _ => retry_after
  | _ => None
  end.

(** The attempts the policy follows by another one while retries are left:
    a response with a listed status, or with a [Retry-After] header and
    status 413, 429 or 503, to an allowed method; a connection error or
    another error; a read error under an allowed method. *)
Definition retried (m : http_method) (out : wire_outcome) : bool :=
  match out with
  | Responded code retry_after _ _ =>
      (allowed m
       && (Retry.mem_Z code [500; 502; 503; 504]%Z
           || (match retry_after with Some _ => true | None => false end
               && Retry.mem_Z code Retry.RETRY_AFTER_STATUS_CODES)))%bool
  | ConnectFailed | OtherFailed => true
  | ReadTimedOut | ConnectionBroken => allowed m
  end.

(** The history entry and the failure of an attempt. *)
Definition entry_of (out : wire_outcome) : option Z :=
  match out with
  | Responded code _ _ _ => Some code
  | _ => None
  end.

Definition failure_of (out : wire_outcome) : Retry.failure :=
  match out with
  | Responded code _ _ _ => Retry.bad_status code
  | ConnectFailed => Retry.connection_error
  | ReadTimedOut => Retry.read_timeout
  | ConnectionBroken => Retry.protocol_error
  | OtherFailed => Retry.other_error
  end.

(** What [urlopen] hands back on an attempt it does not retry. *)
Definition settled (out : wire_outcome) : urlopen_result :=
  match out with
  | Responded code _ target body => UResponse code target body
  | _ => UError (failure_of out)
  end.

(** The backoff after [failures] failed attempts in a row, and the pause
    after an attempt: its [Retry-After] seconds, else the backoff. *)
Definition backoff (failures : nat) : list Z :=
  if Nat.leb failures 1 then []
  else [Z.min 120 (2 ^ (Z.of_nat failures - 1))]%Z.

Definition pause_after (failures : nat) (out : wire_outcome) : list Z :=
  match retry_after_of out with
  | Some s => if (s =? 0)%Z then backoff failures else [s]
  | None => backoff failures
  end.

Lemma is_exhausted_policy t hist :
  Retry.is_exhausted (policy t hist) = (t <? 0)%Z.
Proof.
  unfold Retry.is_exhausted. simpl.
  destruct (t =? 0)%Z eqn:E; simpl; [|reflexivity].
  apply Z.eqb_eq in E. subst t. reflexivity.
Qed.

Lemma increment_policy t hist m out :
  (1 <= t)%Z ->
  retried m out = true ->
  Retry.increment (policy t hist) m (failure_of out)
  = Retry.Next (policy (Z.pred t) (hist ++ [entry_of out])).
Proof.
  intros Ht Hr.
  assert (Hex : forall h, Retry.is_exhausted (policy (Z.pred t) h) = false).
  { intro h. rewrite is_exhausted_policy. apply Z.ltb_ge. lia. }
  unfold Retry.increment.
  destruct out as [code ra target body| | | |]; simpl in *;
    try (change (Retry._is_method_retryable (policy t hist) m) with (allowed m);
         rewrite Hr; simpl);
    match goal with
    | |- (if Retry.is_exhausted ?p then _ else _) = Retry.Next ?q =>
        change p with q; rewrite Hex; reflexivity
    end.
Qed.

Lemma increment_policy_spent hist m out :
  retried m out = true ->
  Retry.increment (policy 0 hist) m (failure_of out)
  = Retry.MaxRetryError (failure_of out).
Proof.
  intro Hr. unfold Retry.increment.
  destruct out as [code ra target body| | | |]; simpl in *;
    try (change (Retry._is_method_retryable (policy 0 hist) m) with (allowed m);
         rewrite Hr; simpl);
    reflexivity.
Qed.

Lemma is_retry_policy t hist m code has_retry_after :
  Retry.is_retry (policy t hist) m code has_retry_after
  = (allowed m
     && (Retry.mem_Z code [500; 502; 503; 504]%Z
         || (negb (t =? 0)%Z && has_retry_after
             && Retry.mem_Z code Retry.RETRY_AFTER_STATUS_CODES)))%bool.
Proof.
  unfold Retry.is_retry.
  change (Retry._is_method_retryable (policy t hist) m) with (allowed m).
  change (Retry.status_forcelist (policy t hist)) with [500; 502; 503; 504]%Z.
  change (Retry.total (policy t hist)) with t.
  change (Retry.respect_retry_after_header (policy t hist)) with true.
  generalize (Retry.mem_Z code [500; 502; 503; 504]%Z) as listed.
  generalize (Retry.mem_Z code Retry.RETRY_AFTER_STATUS_CODES) as after.
  intros after listed.
  destruct (allowed m), listed, after, (t =? 0)%Z, has_retry_after;
    reflexivity.
Qed.

(** What [urlopen] hands back agrees with the outcome of an attempt: it is
    that response, or an error where the attempt failed or its response
    has an error status. *)
Definition agrees (res : urlopen_result) (out : wire_outcome) : Prop :=
  match res, out with
  | UResponse code target body, Responded code' _ target' body' =>
      code = code' /\ target = target' /\ body = body'
  | UResponse _ _ _, _ => False
  | URaised _, _ => False
  | _, Responded code _ _ _ => (400 <= code < 600)%Z
  | _, _ => True
  end.

Lemma mem_Z_In z l : Retry.mem_Z z l = true -> In z l.
Proof.
  unfold Retry.mem_Z. rewrite existsb_exists.
  intros [x [Hin Hx]]. apply Z.eqb_eq in Hx. now subst.
Qed.

Lemma after_attempt_retried t hist m out :
  (1 <= t)%Z ->
  retried m out = true ->
  after_attempt (policy t hist) m out
  = Again (policy (Z.pred t) (hist ++ [entry_of out]))
      (Retry.sleep_seconds (policy (Z.pred t) (hist ++ [entry_of out]))
         (retry_after_of out)).
Proof.
  intros Ht Hr. pose proof (increment_policy t hist m out Ht Hr) as Hinc.
  destruct out as [code ra target body| | | |]; unfold after_attempt, after_error;
    cbn [failure_of entry_of retry_after_of] in *;
    try (rewrite Hinc; reflexivity).
  rewrite is_retry_policy, Hinc.
  replace (t =? 0)%Z with false by (symmetry; apply Z.eqb_neq; lia).
  simpl in Hr. simpl. rewrite Hr. reflexivity.
Qed.

Lemma after_attempt_settled t hist m out :
  retried m out = false ->
  after_attempt (policy t hist) m out = Done (settled out).
Proof.
  intro Hr.
  destruct out as [code ra target body| | | |]; unfold after_attempt, after_error;
    simpl in Hr; try discriminate.
  - rewrite is_retry_policy.
    destruct (allowed m); simpl in *; [|reflexivity].
    apply orb_false_iff in Hr. destruct Hr as [-> Hr]. simpl.
    destruct (t =? 0)%Z; simpl; [reflexivity|].
    destruct ra; simpl in *; [rewrite Hr|]; reflexivity.
  - unfold Retry.increment.
    change (Retry._is_method_retryable (policy t hist) m) with (allowed m).
    rewrite Hr. reflexivity.
  - unfold Retry.increment.
    change (Retry._is_method_retryable (policy t hist) m) with (allowed m).
    rewrite Hr. reflexivity.
Qed.

Lemma after_attempt_spent hist m out :
  retried m out = true ->
  exists res, after_attempt (policy 0 hist) m out = Done res /\ agrees res out.
Proof.
  intro Hr. pose proof (increment_policy_spent hist m out Hr) as Hinc.
  destruct out as [code ra target body| | | |]; unfold after_attempt, after_error;
    cbn [failure_of entry_of retry_after_of] in *;
    try (rewrite Hinc; eexists; split; [reflexivity|exact I]).
  rewrite is_retry_policy, Hinc. clear Hinc. cbn [retried] in Hr.
  change (Retry.raise_on_status (policy 0 hist)) with true.
  change (0 =? 0)%Z with true. cbn [negb andb].
  destruct (allowed m); [|discriminate Hr]. cbn [andb].
  rewrite orb_false_r.
  destruct (Retry.mem_Z code [500; 502; 503; 504]%Z) eqn:El.
  - eexists. split; [reflexivity|]. cbn [agrees].
    apply mem_Z_In in El. simpl in El. lia.
  - eexists. split; [reflexivity|]. cbn [agrees]. auto.
Qed.

Lemma agrees_settled out : agrees (settled out) out.
Proof. destruct out; simpl; auto. Qed.

Lemma slept_pause_for t hist out w :
  slept (pause_for (Retry.sleep_seconds (policy t (hist ++ [entry_of out]))
                      (retry_after_of out)) w)
  = slept w ++ pause_after (S (length hist)) out
  /\ wire (pause_for (Retry.sleep_seconds (policy t (hist ++ [entry_of out]))
                        (retry_after_of out)) w) = wire w
  /\ written (pause_for (Retry.sleep_seconds (policy t (hist ++ [entry_of out]))
                           (retry_after_of out)) w) = written w.
Proof.
  assert (Hb : forall w0,
    let p := match (let b := Retry.get_backoff_time
                               (policy t (hist ++ [entry_of out])) in
                    if (b <=? 0)%Z then None else Some b) with
             | Some s => snd (sleep s w0) | None => w0 end in
    slept p = slept w0 ++ backoff (S (length hist))
    /\ wire p = wire w0 /\ written p = written w0).
  { intro w0. unfold Retry.get_backoff_time, backoff. simpl Retry.history.
    rewrite length_app. simpl length. rewrite Nat.add_1_r.
    change (Retry.backoff_factor _) with 1%Z.
    destruct (length hist) as [|h] eqn:El.
    - simpl. rewrite app_nil_r. auto.
    - replace (Z.of_nat (S (S h)) <=? 1)%Z with false
        by (symmetry; apply Z.leb_gt; lia).
      change (Nat.leb (S (S h)) 1) with false.
      unfold Retry.DEFAULT_BACKOFF_MAX. rewrite Z.mul_1_l.
      assert (0 < 2 ^ (Z.of_nat (S (S h)) - 1))%Z
        by (apply Z.pow_pos_nonneg; lia).
      replace (Z.min 120 (2 ^ (Z.of_nat (S (S h)) - 1)) <=? 0)%Z with false
        by (symmetry; apply Z.leb_gt; lia).
      simpl. auto. }
  unfold Retry.sleep_seconds, pause_after, pause_for.
  change (Retry.respect_retry_after_header _) with true.
  destruct (retry_after_of out) as [s|]; [|apply Hb].
  destruct (s =? 0)%Z; simpl andb; cbv iota; [apply Hb|].
  simpl. auto.
Qed.

(** The outcome of attempt number [i] (from 0) of a request sent from [w]. *)
Definition attempt (server : list Request -> Request -> wire_outcome)
  (w : World) (req : Request) (i : nat) : wire_outcome :=
  server (wire w ++ repeat req i) req.

Lemma attempt_shift server w w1 req i :
  wire w1 = wire w ++ [req] ->
  attempt server w1 req i = attempt server w req (S i).
Proof.
  intro H. unfold attempt. rewrite H, <- app_assoc. reflexivity.
Qed.

(** A run of [urlopen] under the policy with [n] retries left: its
    attempts, its pauses and what it hands back. *)
Definition run (server : list Request -> Request -> wire_outcome)
  (req : Request) (failures : nat) (w : World)
  (R : urlopen_result * World) (k : nat) : Prop :=
  wire (snd R) = wire w ++ repeat req k
  /\ slept (snd R)
     = slept w ++ flat_map (fun i => pause_after (failures + S i)
                                       (attempt server w req i))
                    (seq 0 (k - 1))
  /\ written (snd R) = written w
  /\ (forall i, S i < k ->
        retried (req_method req) (attempt server w req i) = true)
  /\ agrees (fst R) (attempt server w req (k - 1)).

Lemma urlopen_policy server stack req :
  putheaders stack (req_headers req) = Ok tt ->
  forall n hist w,
  exists k,
    1 <= k <= S n
    /\ run server req (length hist) w
         (urlopen server stack req (policy (Z.of_nat n) hist) w) k
    /\ (k <= n ->
        retried (req_method req) (attempt server w req (k - 1)) = false).
Proof.
  intro Hput.
  assert (H0 : forall w,
    fst (transmit server stack req w) = Answered (attempt server w req 0)).
  { intro w. rewrite (transmit_sendable _ _ _ _ Hput).
    unfold attempt. simpl. now rewrite app_nil_r. }
  assert (Hsnd : forall w,
    snd (transmit server stack req w)
    = {| wire := wire w ++ [req]; slept := slept w; written := written w |}).
  { intro w. now rewrite (transmit_sendable _ _ _ _ Hput). }
  assert (Hone : forall t hist w,
    retried (req_method req) (attempt server w req 0) = false ->
    run server req (length hist) w
      (urlopen server stack req (policy t hist) w) 1).
  { intros t hist w Hr. rewrite urlopen_round, H0, Hsnd. cbn [after].
    rewrite after_attempt_settled by auto.
    repeat split; simpl; try now rewrite app_nil_r.
    - intros i Hi. lia.
    - apply agrees_settled. }
  induction n as [|n IH]; intros hist w;
    destruct (retried (req_method req) (attempt server w req 0)) eqn:Hr.
  - exists 1. split; [lia|]. split; [|lia].
    change (Z.of_nat 0) with 0%Z. rewrite urlopen_round, H0, Hsnd.
    cbn [after].
    destruct (after_attempt_spent hist _ _ Hr) as [res [-> Hres]].
    repeat split; simpl; try now rewrite app_nil_r.
    + intros i Hi. lia.
    + exact Hres.
  - exists 1. split; [lia|]. split; [apply Hone, Hr | lia].
  - rewrite urlopen_round, H0, Hsnd. cbn [after].
    rewrite after_attempt_retried by (auto; lia).
    rewrite Nat2Z.inj_succ, Z.pred_succ.
    set (out := attempt server w req 0) in *.
    set (w0 := {| wire := wire w ++ [req]; slept := slept w;
                  written := written w |}).
    set (w1 := pause_for _ _).
    destruct (slept_pause_for (Z.of_nat n) hist out w0) as [Hs [Hw Hwr]].
    fold w1 in Hs, Hw, Hwr. simpl in Hs, Hw, Hwr.
    destruct (IH (hist ++ [entry_of out]) w1) as [k [Hk [Hrun Hlast]]].
    destruct Hrun as [R1 [R2 [R3 [R4 R5]]]].
    assert (Hat : forall i, attempt server w1 req i = attempt server w req (S i))
      by (intro i; apply attempt_shift, Hw).
    exists (S k). split; [lia|]. split; [repeat split|].
    + rewrite R1, Hw, <- app_assoc. reflexivity.
    + rewrite R2, Hs, <- app_assoc. f_equal.
      replace (S k - 1) with (S (k - 1)) by lia.
      rewrite <- cons_seq, <- seq_shift. simpl flat_map at 2.
      rewrite Nat.add_1_r. f_equal.
      clear R2.
      induction (seq 0 (k - 1)) as [|i l IHl]; simpl; [reflexivity|].
      rewrite IHl, Hat, length_app. simpl. do 2 f_equal. lia.
    + rewrite R3, Hwr. reflexivity.
    + intros [|i] Hi; [exact Hr|]. rewrite <- Hat. apply R4. lia.
    + replace (S k - 1) with (S (k - 1)) by lia. rewrite <- Hat. exact R5.
    + intro Hle. replace (S k - 1) with (S (k - 1)) by lia.
      rewrite <- Hat. apply Hlast. lia.
  - exists 1. split; [lia|]. split; [apply Hone, Hr|].
    intros _. exact Hr.
Qed.

(** ** What [make_request] hands to [session.get], and what it makes of the
    answer *)

Definition url_for (self : MSISDNRequestExtractor) (msisdn : ustr)
  : result string :=
  query <-- urlencode [("is-personal-details-embedded", "true" : ustr);
                       ("msisdn", msisdn)] ;;
  Ok (base_url self ++ "?" ++ query)%string.

Definition headers_for (self : MSISDNRequestExtractor) (msisdn : ustr)
  : pydict ustr :=
  dict_set (headers self) "Msisdn" msisdn.

(** The request [requests] prepares from them in a world that has seen the
    requests [hist]. *)
Definition request_for (stack : HttpStack) (hist : list Request)
  (self : MSISDNRequestExtractor) (msisdn : ustr) : result Request :=
  url <-- url_for self msisdn ;;
  prepared <-- prepare_request stack hist url (headers_for self msisdn) ;;
  Ok {| req_method := GET; req_url := fst prepared;
        req_headers := snd prepared;
        req_verify := false; req_timeout := 30 |}.

(** The exceptions the [except] clauses of [make_request] catch. *)
Definition handled (e : exn) : bool :=
  (is_HTTPError e || is_ConnectionError e || is_Timeout e
   || is_RequestException e || is_JSONDecodeError e)%bool.

(** An answer [requests] goes on from: a response with a [Location] header
    and one of the redirect statuses. *)
Definition redirects (out : wire_outcome) : bool :=
  match out with
  | Responded code _ (Some _) _ => Retry.mem_Z code REDIRECT_STATI
  | _ => false
  end.

(** What [make_request] returns or raises when the last attempt had this
    outcome and [requests] does not go on from it: the decoded body of a
    response whose status is outside 400 .. 599, the exception of decoding
    it when no [except] clause catches that, and [None] in every other
    case. *)
Definition fetch_result (out : wire_outcome) : result value :=
  match out with
  | Responded code _ _ body =>
      if ((400 <=? code) && (code <? 600))%Z then Ok VNone
      else
        match body with
        | Ok v => Ok v
        | Raise e => if handled e then Ok VNone else Raise e
        end
  | _ => Ok VNone
  end.

Lemma handler_handled e w :
  handled e = true ->
  (if is_HTTPError e then ret VNone
   else if is_ConnectionError e then ret VNone
   else if is_Timeout e then ret VNone
   else if is_RequestException e then ret VNone
   else if is_JSONDecodeError e then ret VNone
   else raise e) w = (Ok VNone, w).
Proof.
  unfold handled.
  destruct (is_HTTPError e), (is_ConnectionError e), (is_Timeout e),
    (is_RequestException e), (is_JSONDecodeError e);
    try reflexivity; discriminate.
Qed.

Lemma handler_unhandled e w :
  handled e = false ->
  (if is_HTTPError e then ret VNone
   else if is_ConnectionError e then ret VNone
   else if is_Timeout e then ret VNone
   else if is_RequestException e then ret VNone
   else if is_JSONDecodeError e then @ret value VNone
   else raise e) w = (Raise e, w).
Proof.
  unfold handled.
  destruct (is_HTTPError e), (is_ConnectionError e), (is_Timeout e),
    (is_RequestException e), (is_JSONDecodeError e);
    try reflexivity; discriminate.
Qed.

Lemma resolve_redirects_final server stack n s req r w :
  get_redirect_target r = Ok None ->
  resolve_redirects server stack n s req r w = (Ok r, w).
Proof.
  intro H. destruct n; simpl; unfold bind, lift; rewrite H; reflexivity.
Qed.

Lemma get_redirect_target_final code ra target body :
  redirects (Responded code ra target body) = false ->
  get_redirect_target
    {| status_code := code; location := target; json_body := body |}
  = Ok None.
Proof.
  unfold redirects, get_redirect_target. simpl.
  destruct target; [intros ->|]; reflexivity.
Qed.

Lemma isdigit_truthy (s : ustr) : isdigit s = true -> ustr_falsy s = false.
Proof. destruct s; [discriminate | reflexivity]. Qed.

(** The adapter [_configure_session] mounts serves every URL that starts
    with [http://] or [https://], in whatever case. *)
Lemma get_adapter_configured url :
  startswith_any (lower url) ["http://"; "https://"] = true ->
  get_adapter _configure_session url = Ok retry_strategy.
Proof.
  intro H. unfold get_adapter.
  change (adapters _configure_session)
    with [("https://", retry_strategy); ("http://", retry_strategy)].
  unfold find_adapter.
  change (lower "https://") with "https://".
  change (lower "http://") with "http://".
  cbn [startswith_any existsb] in H.
  destruct (startswith (lower url) "https://"); [reflexivity|].
  destruct (startswith (lower url) "http://"); [reflexivity|].
  discriminate.
Qed.

(** The run of [make_request] for an identifier that passes the guard, when
    [requests] prepares its request, an adapter with the policy of
    [_configure_session] serves it, [http.client] can write it, and the
    answer of the last attempt is no redirect. *)
Lemma make_request_run server stack (self : MSISDNRequestExtractor)
  msisdn w req k :
  isdigit msisdn = true ->
  request_for stack (wire w) self msisdn = Ok req ->
  get_adapter (session self) (req_url req) = Ok retry_strategy ->
  agrees (fst (urlopen server stack req retry_strategy w))
    (attempt server w req k) ->
  redirects (attempt server w req k) = false ->
  make_request server stack self msisdn w
  = (fetch_result (attempt server w req k),
     snd (urlopen server stack req retry_strategy w)).
Proof.
  intros Hd Hreq Ha Hag Hred. unfold make_request.
  rewrite Hd, (isdigit_truthy _ Hd). cbn [orb negb].
  unfold request_for, url_for in Hreq.
  destruct (urlencode _) as [query|e]; [|discriminate].
  cbn [rbind] in Hreq.
  destruct (prepare_request stack (wire w) _ _) as [prepared|e] eqn:Ep;
    [|discriminate].
  cbn [rbind] in Hreq. injection Hreq as Hreq.
  unfold try_except, get, session_send, send, bind, lift.
  unfold headers_for in Ep. rewrite Ep, Hreq, Ha.
  destruct (urlopen server stack req retry_strategy w) as [res w'].
  destruct (attempt server w req k) as [code ra target body| | | |] eqn:Eo;
    destruct res as [code' target' body'|f|f|e]; simpl in Hag;
    try contradiction; try (destruct f; reflexivity).
  - destruct Hag as [-> [-> ->]].
    rewrite (resolve_redirects_final _ _ _ _ _ _ _
               (get_redirect_target_final _ _ _ _ Hred)).
    unfold raise_for_status, json, fetch_result. simpl.
    destruct ((400 <=? code) && (code <? 600))%Z%bool; simpl;
      [reflexivity|].
    destruct body as [v|e]; simpl; [reflexivity|].
    destruct (handled e) eqn:Eh;
      [apply handler_handled | apply handler_unhandled]; exact Eh.
  - assert (Hr : ((400 <=? code) && (code <? 600))%Z%bool = true).
    { apply andb_true_iff. split; [apply Z.leb_le | apply Z.ltb_lt]; lia. }
    unfold fetch_result. rewrite Hr. destruct f; reflexivity.
  - assert (Hr : ((400 <=? code) && (code <? 600))%Z%bool = true).
    { apply andb_true_iff. split; [apply Z.leb_le | apply Z.ltb_lt]; lia. }
    unfold fetch_result. rewrite Hr. destruct f; reflexivity.
Qed.




(** ** Tabular reader *)

(** A file system holding one CSV table, its cells being strings. *)
Definition one_table (column : string) (cells : list string)
  : string -> result (DataFrame string) :=
  fun _ => Ok [(column, cells)].

Definition no_file : string -> result (DataFrame string) :=
  fun _ => Raise (OSError "No such file or directory").

(** C8, as it holds of the code: when at least one cell of the identifier
    column, converted to a string and stripped, passes [str.isdigit], the
    reader returns exactly the converted and stripped cells that pass it, in
    row order, the others being dropped without error; when no cell passes, it
    raises [ValueError] instead. Below U+0100 [str.isdigit] accepts the
    strings made of [0] .. [9] and of the superscripts U+00B2, U+00B3 and
    U+00B9. *)
Theorem C8_read_msisdns (Cell : Type) (astype_str : Cell -> ustr)
  (read_csv read_excel : string -> result (DataFrame Cell))
  (input_file msisdn_column : string) (df : DataFrame Cell)
  (column : list Cell) :
  input_file <> EmptyString ->
  msisdn_column <> EmptyString ->
  read_table Cell read_csv read_excel input_file = Ok df ->
  dict_lookup df msisdn_column = Some column ->
  let kept :=
    filter isdigit (map (fun cell => strip (astype_str cell)) column) in
  (kept <> [] ->
   read_msisdns Cell astype_str read_csv read_excel input_file msisdn_column
   = Ok kept)
  /\ (kept = [] ->
      read_msisdns Cell astype_str read_csv read_excel input_file msisdn_column
      = Raise (ValueError "No valid MSISDNs found in the file"))
  /\ Forall (fun m => isdigit m = true) kept
  /\ (forall m, In m kept <->
                (exists cell, In cell column /\ strip (astype_str cell) = m)
                /\ isdigit m = true).
Proof.
  intros Hf Hc Hdf Hcol kept.
  apply String.eqb_neq in Hf, Hc.
  unfold read_msisdns, str_falsy. rewrite Hf, Hc, Hdf. simpl. rewrite Hcol.
  fold kept. split; [|split; [|split]].
  - destruct kept; [congruence | reflexivity].
  - intros ->. reflexivity.
  - apply Forall_forall. intros m Hm. apply filter_In in Hm. tauto.
  - intro m. unfold kept. rewrite filter_In, in_map_iff.
    split; intros [[cell H] Hd]; (split; [exists cell; tauto | exact Hd]).
Qed.

Lemma C8_read_msisdns_witness :
  ("ids.csv" <> EmptyString /\ "msisdn" <> EmptyString)
  /\ read_msisdns string (fun s => s)
       (one_table "msisdn" ["994501234567"; "abc"; " 994507654321 "; ""])
       no_file "ids.csv" "msisdn"
     = Ok (ustrs ["994501234567"; "994507654321"]).
Proof.
  assert (H1 : "ids.csv" <> EmptyString) by discriminate.
  assert (H2 : "msisdn" <> EmptyString) by discriminate.
  split; [split; assumption|].
  refine (proj1 (C8_read_msisdns string (fun s => s)
                   (one_table "msisdn"
                      ["994501234567"; "abc"; " 994507654321 "; ""])
                   no_file "ids.csv" "msisdn"
                   [("msisdn", ["994501234567"; "abc"; " 994507654321 "; ""])]
                   ["994501234567"; "abc"; " 994507654321 "; ""]
                   H1 H2 eq_refl eq_refl) _).
  discriminate.
Defined.

(** C8, as stated, fails twice: a column without any numeric value makes
    the reader raise instead of returning the empty selection, and a cell
    holding a superscript two is kept although it is no decimal digit. *)
Lemma C8_counterexample :
  read_msisdns string (fun s => s) (one_table "msisdn" ["abc"; "12x"])
    no_file "ids.csv" "msisdn"
  = Raise (ValueError "No valid MSISDNs found in the file")
  /\ read_msisdns string (fun s => s)
       (one_table "msisdn" ["123"; superscript_two]) no_file "ids.csv" "msisdn"
     = Ok (ustrs ["123"; superscript_two])
  /\ all_decimal_digits superscript_two = false.
Proof. repeat split. Qed.

(** ** Batch orchestrator *)

(** *** No part of a fetch writes a table *)

Lemma pause_for_written pause w : written (pause_for pause w) = written w.
Proof. destruct pause; reflexivity. Qed.

Lemma transmit_written server stack req w :
  written (snd (transmit server stack req w)) = written w.
Proof.
  unfold transmit. destruct (putheaders stack (req_headers req));
    [reflexivity|].
  destruct (startswith _ _); [|reflexivity].
  destruct (server (wire w) req); reflexivity.
Qed.

Lemma urlopen_written server stack req retries w :
  written (snd (urlopen server stack req retries w)) = written w.
Proof.
  funelim (urlopen server stack req retries w).
  - apply transmit_written.
  - match goal with
    | IH : written (snd (urlopen _ _ _ _ _)) = _ |- _ => rewrite IH
    end.
    rewrite pause_for_written. apply transmit_written.
Qed.

Lemma send_written server stack adapter req w :
  written (snd (send server stack adapter req w)) = written w.
Proof.
  unfold send.
  pose proof (urlopen_written server stack req adapter w) as H.
  destruct (urlopen server stack req adapter w) as [res w']. simpl in H.
  destruct res as [code target body|f|f|e]; try destruct f; exact H.
Qed.

Lemma session_send_written server stack s req w :
  written (snd (session_send server stack s req w)) = written w.
Proof.
  unfold session_send, bind, lift.
  destruct (get_adapter s (req_url req)); [apply send_written | reflexivity].
Qed.

Lemma resolve_redirects_written server stack n : forall s req r w,
  written (snd (resolve_redirects server stack n s req r w)) = written w.
Proof.
  induction n as [|n IH]; intros s req r w; simpl; unfold bind, lift, ret, raise;
    destruct (get_redirect_target r) as [[url|]|e]; try reflexivity;
    destruct (str_falsy url); try reflexivity.
  destruct (redirect_request stack (wire w) req (status_code r) url)
    as [next|e]; [|reflexivity].
  match goal with
  | |- context [session_send server stack s ?q w] =>
      pose proof (session_send_written server stack s q w) as H;
      destruct (session_send server stack s q w) as [[r'|e] w']
  end; simpl in H; [|exact H].
  rewrite IH. exact H.
Qed.

Lemma get_written server stack s url hdrs verify timeout w :
  written (snd (get server stack s url hdrs verify timeout w)) = written w.
Proof.
  unfold get, bind.
  destruct (prepare_request stack (wire w) url hdrs) as [prepared|e];
    [|reflexivity].
  match goal with
  | |- context [session_send server stack s ?q w] =>
      pose proof (session_send_written server stack s q w) as H;
      destruct (session_send server stack s q w) as [[r'|e] w']
  end; simpl in H; [|exact H].
  rewrite resolve_redirects_written. exact H.
Qed.

(** Whatever it returns or raises, [make_request] writes no table. *)
Lemma make_request_written server stack self msisdn w :
  written (snd (make_request server stack self msisdn w)) = written w.
Proof.
  unfold make_request.
  destruct (ustr_falsy msisdn || negb (isdigit msisdn))%bool; [reflexivity|].
  unfold try_except, bind, lift.
  destruct (urlencode _) as [query|e].
  - match goal with
    | |- context [get server stack ?s ?u ?h ?v ?t w] =>
        pose proof (get_written server stack s u h v t w) as H;
        destruct (get server stack s u h v t w) as [[r|e] w']
    end; simpl in H.
    + destruct (raise_for_status r) as [[]|e];
        [destruct (json r) as [v|e]; [exact H|]|];
        destruct (is_HTTPError e), (is_ConnectionError e), (is_Timeout e),
          (is_RequestException e), (is_JSONDecodeError e); exact H.
    + destruct (is_HTTPError e), (is_ConnectionError e), (is_Timeout e),
        (is_RequestException e), (is_JSONDecodeError e); exact H.
  - destruct (is_HTTPError e), (is_ConnectionError e), (is_Timeout e),
      (is_RequestException e), (is_JSONDecodeError e); reflexivity.
Qed.

(** *** What [make_request] absorbs *)




(** An identifier that passes [str.isdigit] can be quoted. *)
Lemma quote_plus_latin_string (s : string) :
  exists q, quote_plus (ustr_of_string s) = Ok q.
Proof.
  induction s as [|c s [q IH]]; simpl; [eauto|].
  unfold ustr_of_string in IH. rewrite IH. simpl. eauto.
Qed.


Lemma urlencode_msisdn (msisdn : ustr) q :
  quote_plus msisdn = Ok q ->
  urlencode [("is-personal-details-embedded", "true" : ustr);
             ("msisdn", msisdn)]
  = Ok ("is-personal-details-embedded=true&msisdn=" ++ q)%string.
Proof.
  intro Hq. unfold urlencode, urlencode_pairs.
  change (quote_plus "is-personal-details-embedded")
    with (Ok "is-personal-details-embedded" : result string).
  change (quote_plus ("true" : ustr)) with (Ok "true" : result string).
  change (quote_plus "msisdn") with (Ok "msisdn" : result string).
  rewrite Hq. reflexivity.
Qed.




(** *** The loop *)

Lemma extract_data_msisdn json_data keys msisdn row :
  extract_data json_data keys msisdn = Ok row ->
  ~ In "msisdn" keys ->
  dict_lookup row "msisdn" = Some (VStr msisdn).
Proof.
  unfold extract_data. intros H Hni.
  destruct (truthy json_data);
    destruct (fill_row_lookup _ _ _ _ H) as [_ Hout];
    rewrite (Hout _ Hni); reflexivity.
Qed.

Lemma extract_data_falsy json_data keys msisdn row :
  truthy json_data = false ->
  extract_data json_data keys msisdn = Ok row ->
  forall k, In k keys -> dict_lookup row k = Some VNone.
Proof.
  unfold extract_data. intros -> H k Hk.
  destruct (fill_row_lookup _ _ _ _ H) as [Hin _].
  destruct (Hin k Hk) as [v [Hv Hl]]. injection Hv as <-. exact Hl.
Qed.

(** The row of an identifier: what [extract_data] makes of what
    [make_request] returned for it, all [None] when that is falsy. *)
Definition row_of (server : list Request -> Request -> wire_outcome)
  (stack : HttpStack) (self : MSISDNRequestExtractor) (keys : list string)
  (msisdn : ustr) (row : dict) : Prop :=
  exists json_data w1 w2,
    make_request server stack self msisdn w1 = (Ok json_data, w2)
    /\ extract_data json_data keys msisdn = Ok row
    /\ (truthy json_data = false ->
        forall k, In k keys -> dict_lookup row k = Some VNone).

(** The loop ends with one row for each identifier, or with the exception
    of a fetch; it writes no table. *)
Lemma process_loop_outcome server stack self keys : forall msisdns results w,
  exists r w',
    process_loop server stack self keys msisdns results w = (r, w')
    /\ written w' = written w
    /\ match r with
       | Ok rows' =>
           exists rows,
             rows' = results ++ rows
             /\ Forall2 (row_of server stack self keys) msisdns rows
       | Raise _ => True
       end.
Proof.
  induction msisdns as [|m ms IH]; intros results w; simpl.
  - exists (Ok results), w. repeat split.
    exists []. rewrite app_nil_r. split; [reflexivity | constructor].
  - unfold bind, lift.
    pose proof (make_request_written server stack self m w) as Hw1.
    destruct (make_request server stack self m w) as [[v|e] w1] eqn:Hreq;
      simpl in Hw1; [|exists (Raise e), w1; auto].
    destruct (extract_data_total v keys m) as [row Hrow]. rewrite Hrow.
    destruct (IH (results ++ [row]) w1) as [r [w' [Hloop [Hw' Hr]]]].
    exists r, w'. split; [exact Hloop|]. split; [congruence|].
    destruct r as [rows'|e]; [|exact I].
    destruct Hr as [rows [-> Hrows]].
    exists (row :: rows). rewrite <- app_assoc. split; [reflexivity|].
    constructor; [|exact Hrows].
    exists v, w, w1. split; [exact Hreq|]. split; [exact Hrow|].
    intros Hf. exact (extract_data_falsy v keys m row Hf Hrow).
Qed.


(** A server that answers every request with the same object. *)
Definition steady_server : list Request -> Request -> wire_outcome :=
  fun _ _ => Responded 200 None None (Ok (VDict [("individualId", VStr "A1")])).


(** A server whose first four answers are connection failures, and a disk
    that takes every table. *)
Definition flaky_server : list Request -> Request -> wire_outcome :=
  fun sent _ =>
    if Nat.ltb (length sent) 4 then ConnectFailed
    else Responded 200 None None (Ok (VDict [("individualId", VStr "A1")])).

Definition writable : writer -> string -> result unit := fun _ _ => Ok tt.




(** The run on the flaky server, evaluated: the first identifier is asked
    four times in vain, the second once. *)
Example process_all_msisdns_flaky :
  exists req1 req2,
    process_all_msisdns flaky_server stack_model string (fun s => s)
      (one_table "msisdn" ["994501234567"; "abc"; "994507654321"]) no_file
      "20240101_000000" writable example_extractor "ids.csv" "msisdn"
      ["individualId"] None fresh_world
    = (Ok tt,
       {| wire := [req1; req1; req1; req1; req2];
          slept := [2; 4]%Z;
          written :=
            [(to_csv, "extracted_data_20240101_000000.csv",
              [[("msisdn", VStr "994501234567"); ("individualId", VNone)];
               [("msisdn", VStr "994507654321");
                ("individualId", VStr "A1")]])] |}).
Proof. do 2 eexists. vm_compute. reflexivity. Qed.

(** ** The string and URL functions on sample inputs *)

Example split_on_ex : split_on "." "a.b..c" = ["a"; "b"; EmptyString; "c"].
Proof. reflexivity. Qed.

Example split_on_empty : split_on "." EmptyString = [EmptyString].
Proof. reflexivity. Qed.

Example strip_ex :
  strip (String "009" "  12 3  ") = "12 3"
  /\ strip [Beyond 12288 Space; Latin "1"; Beyond 1633 Digit; Beyond 8195 Space]
     = [Latin "1"; Beyond 1633 Digit].
Proof. split; reflexivity. Qed.

Example rstrip_ex : rstrip "http://h/p?a=1&?&" "&?" = "http://h/p?a=1".
Proof. reflexivity. Qed.

Example lower_ex : lower "A.CsV" = "a.csv".
Proof. reflexivity. Qed.

Example endswith_ex :
  endswith "a.csv" ".csv" = true /\ endswith "csv" ".csv" = false.
Proof. split; reflexivity. Qed.

Example isdigit_ex :
  isdigit "0123456789" = true /\ isdigit "12 3" = false
  /\ isdigit EmptyString = false /\ isdigit superscript_two = true
  /\ isdigit arabic_indic_123 = true
  /\ isdigit [Beyond 1633 Neither] = false.
Proof. repeat split. Qed.

Example quote_plus_ex :
  quote_plus "a b/c~+" = Ok "a+b%2Fc~%2B"
  /\ quote_plus (String (ascii_of_N 255) EmptyString) = Ok "%C3%BF"
  /\ quote_plus [Beyond 1633 Digit; Beyond 1634 Digit] = Ok "%D9%A1%D9%A2"
  /\ quote_plus [Beyond 2048 Neither] = Ok "%E0%A0%80"
  /\ quote_plus [Beyond 65535 Neither] = Ok "%EF%BF%BF"
  /\ quote_plus [Beyond 120782 Digit] = Ok "%F0%9D%9F%8E"
  /\ quote_plus [Beyond 55296 Neither] = Raise UnicodeEncodeError.
Proof. repeat split. Qed.

Example urlencode_ex :
  urlencode [("is-personal-details-embedded", "true" : ustr);
             ("msisdn", superscript_two : ustr)]
  = Ok "is-personal-details-embedded=true&msisdn=%C2%B2".
Proof. reflexivity. Qed.

Example urlparse_model_ex1 :
  urlparse_model "https://example.com/api" = Ok {| scheme := "https"; netloc := "example.com" |}.
Proof. reflexivity. Qed.
Example urlparse_model_ex2 :
  urlparse_model "invalid-url" = Ok {| scheme := EmptyString; netloc := EmptyString |}.
Proof. reflexivity. Qed.
Example urlparse_model_ex3 :
  urlparse_model "ftp://example.com" = Ok {| scheme := "ftp"; netloc := "example.com" |}.
Proof. reflexivity. Qed.
Example urlparse_model_ex4 :
  urlparse_model "HTTP://Example.com:80?x" = Ok {| scheme := "http"; netloc := "Example.com:80" |}.
Proof. reflexivity. Qed.

Example urlparse_model_ex5 :
  urlparse_model "  http://a/b" = Ok {| scheme := "http"; netloc := "a" |}.
Proof. reflexivity. Qed.
Example urlparse_model_ex6 :
  urlparse_model "http://[::1" = Raise (ValueError "Invalid IPv6 URL").
Proof. reflexivity. Qed.
Example urlparse_model_ex7 :
  urlparse_model (rstrip "http://&" "&?")
  = Ok {| scheme := "http"; netloc := EmptyString |}.
Proof. reflexivity. Qed.

Example prepare_request_model_ex :
  prepare_request_model []
    "https://example.com/api?is-personal-details-embedded=true&msisdn=994501234567"
    (dict_set default_headers "Msisdn" "994501234567")
  = Ok ("https://example.com/api?is-personal-details-embedded=true&msisdn=994501234567",
        [("User-Agent", "PostmanRuntime/7.28.4" : ustr);
         ("Accept-Encoding", "gzip, deflate, br" : ustr);
         ("Accept", "*/*" : ustr);
         ("Connection", "keep-alive" : ustr);
         ("Content-Type", "application/json" : ustr);
         ("Msisdn", "994501234567" : ustr)]).
Proof. reflexivity. Qed.

Example prepare_url_model_ex :
  prepare_url_model "http://:80?x=1" = Raise InvalidURL
  /\ prepare_url_model "https://example.com?x=1" = Ok "https://example.com/?x=1"
  /\ prepare_url_model "example.com/api" = Raise MissingSchema
  /\ prepare_url_model "http://user@example.com:8080/a" = Ok "http://user@example.com:8080/a"
  /\ prepare_url_model "http://.example.com/" = Raise InvalidURL
  /\ prepare_url_model "ftp://example.com" = Ok "ftp://example.com".
Proof. repeat split. Qed.

Example putheader_model_ex :
  putheader_model "Msisdn" arabic_indic_123 = Raise UnicodeEncodeError
  /\ putheader_model "Msisdn" superscript_two = Ok tt
  /\ putheader_model (String "M" (String (ascii_of_N 233) EmptyString)) "x"
     = Raise UnicodeEncodeError
  /\ putheader_model (String "X" (String "010" EmptyString)) "v"
     = Raise (ValueError "Invalid header name b'X\n'")
  /\ putheader_model "X" (String "v" (String "010" EmptyString))
     = Raise (ValueError "Invalid header value b'v\n'")
  /\ putheader_model EmptyString "v" = Raise (ValueError "Invalid header name b''")
  /\ putheader_model " X" "v" = Raise (ValueError "Invalid header name b' X'")
  /\ putheader_model "X Y" "v" = Ok tt
  /\ putheader_model "X"
       (String "v" (String "013" (String "010" (String " " "w")))) = Ok tt.
Proof. repeat split. Qed.

(** * Further properties of the source *)

(** ** [main]

    The entry point: the configuration is written into it, and whatever
    exception the run ends in is printed and dropped. *)
Definition main (server : list Request -> Request -> wire_outcome)
  (stack : HttpStack) (urlparse : string -> result ParseResult)
  (Cell : Type) (astype_str : Cell -> ustr)
  (read_csv read_excel : string -> result (DataFrame Cell))
  (timestamp : string) (disk : writer -> string -> result unit) : M unit :=
  let base_url :=
    "http://account-service-amdocs-qa-tests.k8s-stage.azercell.com/api/v1/contacts/search" in
  let input_file := "C:\Users\smammadzada\Desktop\test.csv" in
  let msisdn_column := "msisdn" in
  let keys_to_extract :=
    ["individualId"; "accounts.accountInternalId"; "document.pin"] in
  try_except
    (extractor <- __init__ urlparse base_url None ;;
     process_all_msisdns server stack Cell astype_str read_csv read_excel
       timestamp disk extractor input_file msisdn_column keys_to_extract
       (Some "C:\Users\smammadzada\Desktop\result_lwt.csv"))
    (fun e => if is_Exception e then ret tt else raise e).

(** ** Construction: headers and base URL *)

Lemma dict_lookup_update {V} (other : pydict V) : forall (d : pydict V) k,
  NoDup (map fst other) ->
  dict_lookup (dict_update d other) k
  = match dict_lookup other k with
    | Some v => Some v
    | None => dict_lookup d k
    end.
Proof.
  unfold dict_update.
  induction other as [|[k1 v1] other IH]; intros d k Hnd; simpl; [reflexivity|].
  inversion Hnd as [|? ? Hni Hnd']; subst. rewrite IH by exact Hnd'.
  destruct (String.eqb k1 k) eqn:E.
  - apply String.eqb_eq in E. subst k1.
    assert (Hnone : dict_lookup other k = None).
    { clear -Hni. induction other as [|[k2 v2] other IH]; simpl; [reflexivity|].
      simpl in Hni. destruct (String.eqb k2 k) eqn:E2.
      - apply String.eqb_eq in E2. tauto.
      - apply IH. tauto. }
    rewrite Hnone. apply dict_lookup_set_same.
  - destruct (dict_lookup other k); [reflexivity|].
    apply dict_lookup_set_other. now apply String.eqb_neq.
Qed.

(** X1: for a base URL that validates, the extractor built carries, for
    every header name, the value the caller gave for it and the default
    otherwise; without custom headers (none, or an empty dictionary) it
    carries exactly the defaults.  Construction leaves the world alone. *)
Theorem X1_headers_override (urlparse : string -> result ParseResult)
  (url u : string) (custom : pydict ustr) (w : World) :
  NoDup (map fst custom) ->
  _validate_url urlparse url = Ok u ->
  (exists self,
      __init__ urlparse url (Some custom) w = (Ok self, w)
      /\ base_url self = u
      /\ session self = _configure_session
      /\ forall name,
          dict_lookup (headers self) name
          = match dict_lookup custom name with
            | Some v => Some v
            | None => dict_lookup default_headers name
            end)
  /\ __init__ urlparse url None w
     = (Ok {| base_url := u; headers := default_headers;
              session := _configure_session |}, w)
  /\ __init__ urlparse url (Some []) w
     = (Ok {| base_url := u; headers := default_headers;
              session := _configure_session |}, w).
Proof.
  unfold __init__, bind, lift, ret. intros Hnd ->.
  split; [|split; reflexivity].
  eexists. split; [reflexivity|]. cbn [base_url session headers].
  split; [reflexivity|]. split; [reflexivity|].
  intro name. destruct custom as [|h hs]; [reflexivity|].
  apply dict_lookup_update, Hnd.
Qed.

Lemma X1_headers_override_witness :
  (NoDup (map fst [("Accept", "text/csv" : ustr); ("X-Trace", "1" : ustr)])
   /\ _validate_url urlparse_model "https://example.com/api"
      = Ok "https://example.com/api")
  /\ exists self,
      __init__ urlparse_model "https://example.com/api"
        (Some [("Accept", "text/csv" : ustr); ("X-Trace", "1" : ustr)]) fresh_world
      = (Ok self, fresh_world)
      /\ base_url self = "https://example.com/api"
      /\ session self = _configure_session
      /\ forall name,
          dict_lookup (headers self) name
          = match dict_lookup [("Accept", "text/csv" : ustr); ("X-Trace", "1" : ustr)] name
            with
            | Some v => Some v
            | None => dict_lookup default_headers name
            end.
Proof.
  assert (H : NoDup (map fst [("Accept", "text/csv" : ustr); ("X-Trace", "1" : ustr)])).
  { repeat constructor; simpl; intuition discriminate. }
  split; [split; [exact H | reflexivity]|].
  exact (proj1 (X1_headers_override urlparse_model "https://example.com/api"
                  "https://example.com/api"
                  [("Accept", "text/csv" : ustr); ("X-Trace", "1" : ustr)] fresh_world
                  H eq_refl)).
Defined.

Lemma rstrip_by_idem p s : rstrip_by p (rstrip_by p s) = rstrip_by p s.
Proof.
  induction s as [|c s IH]; simpl; [reflexivity|].
  destruct (rstrip_by p s) as [|a r] eqn:Er.
  - destruct (p c) eqn:Ec; simpl; [reflexivity|]. now rewrite Ec.
  - simpl in *. rewrite IH. reflexivity.
Qed.

Lemma rstrip_by_no_trailing p s a :
  p a = true -> endswith (rstrip_by p s) (String a EmptyString) = false.
Proof.
  intro Ha. induction s as [|c s IH]; simpl; [reflexivity|].
  destruct (rstrip_by p s) as [|a0 r] eqn:Er.
  - destruct (p c) eqn:Ec; simpl; [reflexivity|].
    destruct (Ascii.eqb c a) eqn:E; [|reflexivity].
    apply Ascii.eqb_eq in E. congruence.
  - change (endswith (String c (String a0 r)) (String a EmptyString))
      with ((String.eqb (String c (String a0 r)) (String a EmptyString)
             || endswith (String a0 r) (String a EmptyString))%bool).
    rewrite IH. simpl. destruct (Ascii.eqb c a); reflexivity.
Qed.

(** X2: a base URL that [_validate_url] accepts comes back without its
    trailing [&] and [?]: the result starts with [http://] or [https://],
    ends in neither [&] nor [?], and validates to itself. *)
Theorem X2_validated_url (urlparse : string -> result ParseResult)
  (url u : string) :
  _validate_url urlparse url = Ok u ->
  u = rstrip url "&?"
  /\ startswith_any u ["http://"; "https://"] = true
  /\ endswith u "&" = false
  /\ endswith u "?" = false
  /\ _validate_url urlparse u = Ok u.
Proof.
  unfold _validate_url. intro H.
  assert (Hidem : rstrip (rstrip url "&?") "&?" = rstrip url "&?")
    by apply rstrip_by_idem.
  destruct (urlparse (rstrip url "&?")) as [parsed|e] eqn:Ep;
    cbn [rbind] in H; [|discriminate].
  match type of H with
  | (if ?c then _ else _) = _ => destruct c eqn:Eparts; [discriminate|]
  end.
  destruct (negb (startswith_any (rstrip url "&?") ["http://"; "https://"]))
    eqn:Epre; [discriminate|].
  injection H as <-.
  split; [reflexivity|].
  split; [now apply negb_false_iff in Epre|].
  split; [apply rstrip_by_no_trailing; reflexivity|].
  split; [apply rstrip_by_no_trailing; reflexivity|].
  rewrite Hidem, Ep. cbn [rbind]. rewrite Eparts, Epre. reflexivity.
Qed.

Lemma X2_validated_url_witness :
  _validate_url urlparse_model "https://example.com/api?&?"
  = Ok "https://example.com/api"
  /\ "https://example.com/api" = rstrip "https://example.com/api?&?" "&?"
  /\ startswith_any "https://example.com/api" ["http://"; "https://"] = true
  /\ endswith "https://example.com/api" "&" = false
  /\ endswith "https://example.com/api" "?" = false
  /\ _validate_url urlparse_model "https://example.com/api"
     = Ok "https://example.com/api".
Proof.
  split; [reflexivity|].
  exact (X2_validated_url urlparse_model "https://example.com/api?&?"
           "https://example.com/api" eq_refl).
Defined.

(** X3: [_validate_url] fails in three ways only: with what [urlparse]
    raised, with the "invalid format" [ValueError] when the scheme or the
    network location is empty, and with the "must start with" [ValueError]
    when both are there but the URL starts with neither [http://] nor
    [https://]. *)
Theorem X3_validation_failures (urlparse : string -> result ParseResult)
  (url : string) (e : exn) :
  _validate_url urlparse url = Raise e ->
  urlparse (rstrip url "&?") = Raise e
  \/ (exists parsed,
         urlparse (rstrip url "&?") = Ok parsed
         /\ (scheme parsed = EmptyString \/ netloc parsed = EmptyString)
         /\ e = ValueError
                  "Invalid URL format. Must include scheme (http/https) and domain.")
  \/ (exists parsed,
         urlparse (rstrip url "&?") = Ok parsed
         /\ scheme parsed <> EmptyString /\ netloc parsed <> EmptyString
         /\ startswith_any (rstrip url "&?") ["http://"; "https://"] = false
         /\ e = ValueError "URL must start with 'http://' or 'https://'").
Proof.
  unfold _validate_url. intro H.
  destruct (urlparse (rstrip url "&?")) as [parsed|e'] eqn:Ep; simpl in H.
  - right. unfold str_falsy in H.
    destruct (String.eqb (scheme parsed) EmptyString) eqn:Es; simpl in H.
    + left. exists parsed. apply String.eqb_eq in Es.
      injection H as <-. auto.
    + destruct (String.eqb (netloc parsed) EmptyString) eqn:En; simpl in H.
      * left. exists parsed. apply String.eqb_eq in En.
        injection H as <-. auto.
      * right. exists parsed. apply String.eqb_neq in Es, En.
        match type of H with
        | (if negb ?c then _ else _) = _ =>
            change c with (startswith_any (rstrip url "&?")
                             ["http://"; "https://"]) in H
        end.
        destruct (startswith_any (rstrip url "&?") ["http://"; "https://"])
          eqn:Epre; simpl in H; [discriminate|].
        injection H as <-. auto.
  - left. congruence.
Qed.

Lemma X3_validation_failures_witness :
  _validate_url urlparse_model "ftp://example.com"
  = Raise (ValueError "URL must start with 'http://' or 'https://'")
  /\ (urlparse_model (rstrip "ftp://example.com" "&?")
      = Raise (ValueError "URL must start with 'http://' or 'https://'")
      \/ (exists parsed,
             urlparse_model (rstrip "ftp://example.com" "&?") = Ok parsed
             /\ (scheme parsed = EmptyString \/ netloc parsed = EmptyString)
             /\ ValueError "URL must start with 'http://' or 'https://'"
                = ValueError
                    "Invalid URL format. Must include scheme (http/https) and domain.")
      \/ (exists parsed,
             urlparse_model (rstrip "ftp://example.com" "&?") = Ok parsed
             /\ scheme parsed <> EmptyString /\ netloc parsed <> EmptyString
             /\ startswith_any (rstrip "ftp://example.com" "&?")
                  ["http://"; "https://"] = false
             /\ ValueError "URL must start with 'http://' or 'https://'"
                = ValueError "URL must start with 'http://' or 'https://'")).
Proof.
  split; [reflexivity|].
  exact (X3_validation_failures urlparse_model "ftp://example.com" _ eq_refl).
Defined.

(** ** Tabular reader: refusals and what it returns *)

(** X4: the reader refuses an empty path or an empty column name, and a
    path whose lowercased form ends in none of [.csv], [.xlsx], [.xls],
    each time with its own [ValueError] and whatever the files hold. *)
Theorem X4_reader_refusals (Cell : Type) (astype_str : Cell -> ustr)
  (read_csv read_excel : string -> result (DataFrame Cell))
  (input_file msisdn_column : string) :
  (input_file = EmptyString \/ msisdn_column = EmptyString ->
   read_msisdns Cell astype_str read_csv read_excel input_file msisdn_column
   = Raise (ValueError "Input file path and MSISDN column name are required"))
  /\ (input_file <> EmptyString ->
      msisdn_column <> EmptyString ->
      endswith_any (lower input_file) [".csv"; ".xlsx"; ".xls"] = false ->
      read_msisdns Cell astype_str read_csv read_excel input_file msisdn_column
      = Raise (ValueError "Unsupported file format. Use CSV or Excel files.")).
Proof.
  unfold read_msisdns, str_falsy. split.
  - intros [-> | ->]; simpl; [reflexivity|].
    destruct (String.eqb input_file EmptyString); reflexivity.
  - intros Hf Hc Hext. apply String.eqb_neq in Hf, Hc. rewrite Hf, Hc.
    cbn [orb]. unfold read_table. cbn [endswith_any existsb] in *.
    apply orb_false_iff in Hext. destruct Hext as [-> Hext].
    rewrite Hext. reflexivity.
Qed.

Lemma X4_reader_refusals_witness :
  read_msisdns string (fun s => s) (one_table "msisdn" ["123"]) no_file
    EmptyString "msisdn"
  = Raise (ValueError "Input file path and MSISDN column name are required")
  /\ ("ids.txt" <> EmptyString /\ "msisdn" <> EmptyString
      /\ endswith_any (lower "ids.txt") [".csv"; ".xlsx"; ".xls"] = false)
  /\ read_msisdns string (fun s => s) (one_table "msisdn" ["123"]) no_file
       "ids.txt" "msisdn"
     = Raise (ValueError "Unsupported file format. Use CSV or Excel files.").
Proof.
  assert (H1 : "ids.txt" <> EmptyString) by discriminate.
  assert (H2 : "msisdn" <> EmptyString) by discriminate.
  split; [|split; [repeat split; assumption|]].
  - exact (proj1 (X4_reader_refusals string (fun s => s)
                    (one_table "msisdn" ["123"]) no_file EmptyString "msisdn")
             (or_introl eq_refl)).
  - exact (proj2 (X4_reader_refusals string (fun s => s)
                    (one_table "msisdn" ["123"]) no_file "ids.txt" "msisdn")
             H1 H2 eq_refl).
Defined.

(** X6: with a path and a column name given, a failure of the file
    reader comes out of [read_msisdns] unchanged, and a table without the
    column makes it raise the [ValueError] that names the column. *)
Theorem X6_reader_file_errors (Cell : Type) (astype_str : Cell -> ustr)
  (read_csv read_excel : string -> result (DataFrame Cell))
  (input_file msisdn_column : string) :
  input_file <> EmptyString ->
  msisdn_column <> EmptyString ->
  (forall e,
      read_table Cell read_csv read_excel input_file = Raise e ->
      read_msisdns Cell astype_str read_csv read_excel input_file msisdn_column
      = Raise e)
  /\ (forall df,
         read_table Cell read_csv read_excel input_file = Ok df ->
         dict_lookup df msisdn_column = None ->
         read_msisdns Cell astype_str read_csv read_excel input_file
           msisdn_column
         = Raise (ValueError
                    ("Column '" ++ msisdn_column ++ "' not found in the file"))).
Proof.
  intros Hf Hc. apply String.eqb_neq in Hf, Hc.
  unfold read_msisdns, str_falsy. rewrite Hf, Hc. cbn [orb].
  split.
  - intros e ->. reflexivity.
  - intros df -> Hcol. cbn [rbind]. rewrite Hcol. reflexivity.
Qed.

Lemma X6_reader_file_errors_witness :
  ("ids.xlsx" <> EmptyString /\ "msisdn" <> EmptyString)
  /\ read_msisdns string (fun s => s) (one_table "msisdn" ["123"]) no_file
       "ids.xlsx" "msisdn"
     = Raise (OSError "No such file or directory")
  /\ read_msisdns string (fun s => s) (one_table "phone" ["123"]) no_file
       "ids.csv" "msisdn"
     = Raise (ValueError "Column 'msisdn' not found in the file").
Proof.
  assert (H1 : "ids.xlsx" <> EmptyString) by discriminate.
  assert (H1' : "ids.csv" <> EmptyString) by discriminate.
  assert (H2 : "msisdn" <> EmptyString) by discriminate.
  split; [split; assumption|]. split.
  - exact (proj1 (X6_reader_file_errors string (fun s => s)
                    (one_table "msisdn" ["123"]) no_file "ids.xlsx" "msisdn"
                    H1 H2) _ eq_refl).
  - exact (proj2 (X6_reader_file_errors string (fun s => s)
                    (one_table "phone" ["123"]) no_file "ids.csv" "msisdn"
                    H1' H2) _ eq_refl eq_refl).
Defined.

Lemma isdigit_char_not_space c : isdigit_char c = true -> isspace_char c = false.
Proof.
  destruct c as [[] [] [] [] [] [] [] []]; vm_compute; congruence.
Qed.

(** No character is a digit and whitespace at once. *)
Lemma uchar_digit_not_space c :
  uchar_isdigit c = true -> uchar_isspace c = false.
Proof.
  destruct c as [a|cp class]; simpl.
  - apply isdigit_char_not_space.
  - destruct class; [reflexivity | discriminate | reflexivity].
Qed.

Lemma lstrip_space_none (s : ustr) :
  forallb (fun c => negb (uchar_isspace c)) s = true -> lstrip_space s = s.
Proof.
  destruct s as [|c s]; simpl; [reflexivity|].
  intro H. apply andb_true_iff in H. destruct H as [H _].
  apply negb_true_iff in H. now rewrite H.
Qed.

Lemma rstrip_space_none (s : ustr) :
  forallb (fun c => negb (uchar_isspace c)) s = true -> rstrip_space s = s.
Proof.
  induction s as [|c s IH]; simpl; [reflexivity|].
  intro H. apply andb_true_iff in H. destruct H as [Hc Hs].
  rewrite (IH Hs). apply negb_true_iff in Hc. rewrite Hc.
  destruct s; reflexivity.
Qed.

Lemma isdigit_forallb (s : ustr) :
  isdigit s = true -> forallb uchar_isdigit s = true.
Proof. destruct s; [discriminate | auto]. Qed.

Lemma isdigit_strip (s : ustr) : isdigit s = true -> strip s = s.
Proof.
  intro H. apply isdigit_forallb in H.
  assert (Hs : forallb (fun c => negb (uchar_isspace c)) s = true).
  { rewrite forallb_forall in *. intros c Hc.
    apply negb_true_iff, uchar_digit_not_space, H, Hc. }
  unfold strip. rewrite (lstrip_space_none _ Hs). apply rstrip_space_none, Hs.
Qed.

Lemma read_msisdns_Ok (Cell : Type) (astype_str : Cell -> ustr)
  (read_csv read_excel : string -> result (DataFrame Cell))
  (input_file msisdn_column : string) (msisdns : list ustr) :
  read_msisdns Cell astype_str read_csv read_excel input_file msisdn_column
  = Ok msisdns ->
  msisdns <> [] /\ Forall (fun m => isdigit m = true) msisdns.
Proof.
  unfold read_msisdns.
  destruct (str_falsy input_file || str_falsy msisdn_column)%bool;
    [discriminate|].
  destruct (read_table Cell read_csv read_excel input_file) as [df|e];
    [|discriminate].
  cbn [rbind]. destruct (dict_lookup df msisdn_column) as [column|];
    [|discriminate].
  destruct (filter isdigit _) as [|m ms] eqn:E; [discriminate|].
  intro H. injection H as <-. split; [discriminate|].
  rewrite <- E. apply Forall_forall. intros x Hx.
  apply filter_In in Hx. tauto.
Qed.

(** X7: what the reader returns is never empty, and each identifier in it
    passes [str.isdigit], is not the empty string, carries no whitespace
    around it, and is accepted by the guard of [make_request]. *)
Theorem X7_reader_output (Cell : Type) (astype_str : Cell -> ustr)
  (read_csv read_excel : string -> result (DataFrame Cell))
  (input_file msisdn_column : string) (msisdns : list ustr) :
  read_msisdns Cell astype_str read_csv read_excel input_file msisdn_column
  = Ok msisdns ->
  msisdns <> []
  /\ forall m, In m msisdns ->
       isdigit m = true
       /\ m <> []
       /\ strip m = m
       /\ (ustr_falsy m || negb (isdigit m))%bool = false.
Proof.
  intro H. destruct (read_msisdns_Ok _ _ _ _ _ _ _ H) as [Hne Hall].
  split; [exact Hne|]. intros m Hm.
  rewrite Forall_forall in Hall. specialize (Hall m Hm).
  split; [exact Hall|]. split; [|split].
  - intros ->. discriminate Hall.
  - apply isdigit_strip, Hall.
  - rewrite Hall. destruct m; [discriminate | reflexivity].
Qed.

Lemma X7_reader_output_witness :
  read_msisdns string (fun s => s)
    (one_table "msisdn" [" 994501234567"; "abc"; "994507654321 "]) no_file
    "ids.csv" "msisdn" = Ok (ustrs ["994501234567"; "994507654321"])
  /\ ustrs ["994501234567"; "994507654321"] <> []
  /\ forall m, In m (ustrs ["994501234567"; "994507654321"]) ->
       isdigit m = true
       /\ m <> []
       /\ strip m = m
       /\ (ustr_falsy m || negb (isdigit m))%bool = false.
Proof.
  split; [reflexivity|].
  exact (X7_reader_output string (fun s => s)
           (one_table "msisdn" [" 994501234567"; "abc"; "994507654321 "])
           no_file "ids.csv" "msisdn" _ eq_refl).
Defined.

(** ** [make_request]: what goes on the wire and what comes back *)



Lemma request_for_shape stack hist self msisdn req :
  request_for stack hist self msisdn = Ok req ->
  req_method req = GET /\ req_verify req = false /\ req_timeout req = 30%Z
  /\ exists url,
      url_for self msisdn = Ok url
      /\ prepare_request stack hist url (headers_for self msisdn)
         = Ok (req_url req, req_headers req).
Proof.
  unfold request_for. destruct (url_for self msisdn) as [url|e];
    [|discriminate].
  cbn [rbind]. destruct (prepare_request stack hist url _) as [[u h]|e] eqn:Ep;
    [|discriminate].
  cbn [rbind]. intro H. injection H as <-. simpl. eauto 6.
Qed.





(** The run of [make_request] for an identifier that passes the guard, by
    an extractor with the session of [_configure_session], when [requests]
    prepares a request with an [http] or [https] URL that [http.client] can
    write. *)
Lemma make_request_attempts server stack (self : MSISDNRequestExtractor)
  msisdn w req :
  isdigit msisdn = true ->
  session self = _configure_session ->
  request_for stack (wire w) self msisdn = Ok req ->
  startswith_any (lower (req_url req)) ["http://"; "https://"] = true ->
  putheaders stack (req_headers req) = Ok tt ->
  exists k,
    1 <= k <= 4
    /\ run server req 0 w (urlopen server stack req retry_strategy w) k
    /\ (k < 4 -> retried GET (attempt server w req (k - 1)) = false)
    /\ (redirects (attempt server w req (k - 1)) = false ->
        make_request server stack self msisdn w
        = (fetch_result (attempt server w req (k - 1)),
           snd (urlopen server stack req retry_strategy w))).
Proof.
  intros Hd Hs Hreq Hp Hput.
  destruct (urlopen_policy server stack req Hput 3 [] w)
    as [k [Hk [Hrun Hlast]]].
  destruct (request_for_shape _ _ _ _ _ Hreq) as [Hm _].
  exists k. split; [lia|]. split; [exact Hrun|].
  split; [intro Hlt; rewrite <- Hm; apply Hlast; lia|].
  intro Hred. destruct Hrun as [_ [_ [_ [_ R5]]]].
  assert (Ha : get_adapter (session self) (req_url req) = Ok retry_strategy).
  { rewrite Hs. apply get_adapter_configured, Hp. }
  exact (make_request_run server stack self msisdn w req (k - 1)
           Hd Hreq Ha R5 Hred).
Qed.



Lemma quote_plus_digits (s : string) :
  all_chars is_decimal_digit s = true -> quote_plus s = Ok s.
Proof.
  induction s as [|c s IH]; simpl; [reflexivity|].
  intro H. apply andb_true_iff in H. destruct H as [Hc Hs].
  unfold ustr_of_string in IH. rewrite (IH Hs). simpl.
  unfold quote_plus_latin, always_safe.
  unfold is_decimal_digit in Hc. rewrite Hc.
  rewrite orb_true_r. reflexivity.
Qed.

Lemma decimal_digits_isdigit (s : string) :
  all_decimal_digits s = true -> isdigit s = true.
Proof.
  destruct s as [|c s]; [discriminate|]. unfold all_decimal_digits.
  intro H. change (forallb uchar_isdigit (ustr_of_string (String c s)) = true).
  revert H. generalize (String c s) as t. clear c s.
  induction t as [|c t IH]; simpl; [reflexivity|].
  intro H. apply andb_true_iff in H. destruct H as [Hc Ht].
  unfold ustr_of_string in IH. rewrite (IH Ht).
  unfold isdigit_char. now rewrite Hc.
Qed.

(** X10: for an identifier made of the digits [0] .. [9], [make_request]
    hands to [session.get] the base URL followed by
    [?is-personal-details-embedded=true&msisdn=] and the identifier as it
    is, and the headers of the extractor with [Msisdn] set to the identifier
    (replacing one of that name).  When [requests] prepares a request from
    them that the session of [_configure_session] serves and [http.client]
    can write, and the server answers no redirect, that request goes on
    the wire one to four times, as a GET without certificate verification
    and with a timeout of 30, and nothing else does. *)
Theorem X10_request_shape
  (server : list Request -> Request -> wire_outcome) (stack : HttpStack)
  (self : MSISDNRequestExtractor) (msisdn : string) (w : World) :
  all_decimal_digits msisdn = true ->
  url_for self msisdn
  = Ok (base_url self ++ "?is-personal-details-embedded=true&msisdn="
        ++ msisdn)%string
  /\ dict_lookup (headers_for self msisdn) "Msisdn"
     = Some (ustr_of_string msisdn)
  /\ (forall name,
         name <> "Msisdn" ->
         dict_lookup (headers_for self msisdn) name
         = dict_lookup (headers self) name)
  /\ (forall url hdrs,
         session self = _configure_session ->
         prepare_request stack (wire w)
           (base_url self ++ "?is-personal-details-embedded=true&msisdn="
            ++ msisdn)%string
           (headers_for self msisdn) = Ok (url, hdrs) ->
         startswith_any (lower url) ["http://"; "https://"] = true ->
         putheaders stack hdrs = Ok tt ->
         (forall hist req, redirects (server hist req) = false) ->
         exists k,
           1 <= k <= 4
           /\ wire (snd (make_request server stack self msisdn w))
              = wire w
                ++ repeat {| req_method := GET; req_url := url;
                             req_headers := hdrs; req_verify := false;
                             req_timeout := 30 |} k).
Proof.
  intro Hdec.
  pose proof (decimal_digits_isdigit msisdn Hdec) as Hd.
  assert (Hq : quote_plus msisdn = Ok msisdn).
  { apply quote_plus_digits. destruct msisdn; [discriminate | exact Hdec]. }
  assert (Hurl : url_for self msisdn
                 = Ok (base_url self
                       ++ "?is-personal-details-embedded=true&msisdn="
                       ++ msisdn)%string).
  { unfold url_for. rewrite (urlencode_msisdn _ _ Hq). reflexivity. }
  split; [exact Hurl|].
  split; [apply dict_lookup_set_same|].
  split; [intros name Hne; apply dict_lookup_set_other; congruence|].
  intros url hdrs Hs Hprep Hp Hput Hred.
  set (req := {| req_method := GET; req_url := url; req_headers := hdrs;
                 req_verify := false; req_timeout := 30 |}).
  assert (Hreq : request_for stack (wire w) self msisdn = Ok req).
  { unfold request_for. rewrite Hurl. cbn [rbind]. rewrite Hprep.
    reflexivity. }
  destruct (make_request_attempts server stack self msisdn w req
              Hd Hs Hreq Hp Hput) as [k [Hk [Hrun [_ Hres]]]].
  destruct Hrun as [R1 _].
  exists k. split; [exact Hk|].
  rewrite (Hres (Hred _ _)). exact R1.
Qed.

Lemma X10_request_shape_witness :
  all_decimal_digits "994501234567" = true
  /\ url_for example_extractor "994501234567"
     = Ok (base_url example_extractor
           ++ "?is-personal-details-embedded=true&msisdn="
           ++ "994501234567")%string
  /\ dict_lookup (headers_for example_extractor "994501234567") "Msisdn"
     = Some (ustr_of_string "994501234567").
Proof.
  split; [reflexivity|].
  destruct (X10_request_shape (fun _ _ => ReadTimedOut) stack_model
              example_extractor "994501234567" fresh_world eq_refl)
    as [H1 [H2 _]].
  split; [exact H1 | exact H2].
Defined.

(** ** The batch: requests, output file, fatal errors *)










Lemma lower_app a b : lower (a ++ b) = (lower a ++ lower b)%string.
Proof. induction a as [|c a IH]; simpl; [reflexivity | now rewrite IH]. Qed.

Lemma endswith_app a b : endswith (a ++ b) b = true.
Proof.
  induction a as [|c a IH]; simpl.
  - destruct b; simpl; rewrite ?Ascii.eqb_refl, ?String.eqb_refl; reflexivity.
  - rewrite IH. apply orb_true_r.
Qed.

(** The name [process_all_msisdns] works with when none is given. *)
Definition default_output (timestamp : string) : string :=
  ("extracted_data_" ++ timestamp ++ ".csv")%string.

Lemma default_output_csv timestamp :
  endswith (lower (default_output timestamp)) ".csv" = true.
Proof.
  unfold default_output.
  rewrite (lower_app "extracted_data_"), (lower_app timestamp).
  change (lower ".csv") with ".csv".
  replace (lower "extracted_data_" ++ lower timestamp ++ ".csv")%string
    with ((lower "extracted_data_" ++ lower timestamp) ++ ".csv")%string.
  - apply endswith_app.
  - generalize (lower "extracted_data_") as a. intro a.
    induction a as [|c a IH]; simpl; [reflexivity | now rewrite IH].
Qed.

(** X12: a run that ends well has written exactly one table, and the
    writer fits the name: [to_csv] under a name ending in [.csv],
    [to_excel] under one ending in [.xlsx] or [.xls], whatever the case of
    the letters.  Without an output name, or with an empty one, the table
    goes to [extracted_data_<timestamp>.csv]; a given name is used as it is
    when it ends in one of the three extensions, and gets [.csv] appended
    when it does not. *)
Theorem X12_output_file
  (server : list Request -> Request -> wire_outcome) (stack : HttpStack)
  (Cell : Type) (astype_str : Cell -> ustr)
  (read_csv read_excel : string -> result (DataFrame Cell))
  (timestamp : string) (disk : writer -> string -> result unit)
  (self : MSISDNRequestExtractor) (input_file msisdn_column : string)
  (keys : list string) (output_file : option string) (w w' : World) :
  process_all_msisdns server stack Cell astype_str read_csv read_excel
    timestamp disk self input_file msisdn_column keys output_file w
  = (Ok tt, w') ->
  exists how path rows,
    written w' = written w ++ [(how, path, rows)]
    /\ (how = to_csv -> endswith (lower path) ".csv" = true)
    /\ (how = to_excel ->
        endswith_any (lower path) [".xlsx"; ".xls"] = true)
    /\ (output_file = None \/ output_file = Some EmptyString ->
        how = to_csv /\ path = default_output timestamp)
    /\ (forall f,
          output_file = Some f -> f <> EmptyString ->
          (endswith_any (lower f) [".csv"; ".xlsx"; ".xls"] = true ->
           path = f)
          /\ (endswith_any (lower f) [".csv"; ".xlsx"; ".xls"] = false ->
              how = to_csv /\ path = (f ++ ".csv")%string)).
Proof.
  unfold process_all_msisdns, bind, lift.
  destruct (read_msisdns _ _ _ _ _ _) as [msisdns|e]; [|discriminate].
  destruct (process_loop_outcome server stack self keys msisdns [] w)
    as [r [w1 [Hloop [Hw1 _]]]].
  rewrite Hloop. destruct r as [rows|e]; [|discriminate].
  fold (default_output timestamp).
  set (given := match output_file with
                | Some f => if str_falsy f then default_output timestamp else f
                | None => default_output timestamp
                end).
  assert (Hgiven_default :
    output_file = None \/ output_file = Some EmptyString ->
    given = default_output timestamp).
  { intros [-> | ->]; reflexivity. }
  assert (Hgiven_f : forall f,
    output_file = Some f -> f <> EmptyString -> given = f).
  { intros f -> Hf. unfold given, str_falsy.
    apply String.eqb_neq in Hf. now rewrite Hf. }
  assert (Hwrite : forall how path,
    write disk how path rows w1 = (Ok tt, w') ->
    written w' = written w ++ [(how, path, rows)]).
  { intros how path. unfold write, bind, lift.
    destruct (disk how path); [|discriminate].
    intro H. injection H as <-. simpl. now rewrite Hw1. }
  destruct (endswith (lower given) ".csv") eqn:Ecsv;
    [|destruct (endswith_any (lower given) [".xlsx"; ".xls"]) eqn:Exl];
    intro H; apply Hwrite in H.
  - exists to_csv, given, rows. split; [exact H|].
    split; [auto|]. split; [discriminate|]. split; [auto|].
    intros f Hf Hne. rewrite (Hgiven_f f Hf Hne) in *. split; [auto|].
    intro Hno. cbn [endswith_any existsb] in Hno.
    rewrite Ecsv in Hno. discriminate.
  - exists to_excel, given, rows. split; [exact H|].
    split; [discriminate|]. split; [auto|]. split.
    + intro Hd. rewrite (Hgiven_default Hd), default_output_csv in Ecsv.
      discriminate.
    + intros f Hf Hne. rewrite (Hgiven_f f Hf Hne) in *. split; [auto|].
      intro Hno. cbn [endswith_any existsb] in Hno, Exl.
      rewrite Ecsv in Hno. simpl in Hno. congruence.
  - exists to_csv, (given ++ ".csv")%string, rows. split; [exact H|].
    split.
    { intros _. rewrite lower_app. apply endswith_app. }
    split; [discriminate|]. split.
    + intro Hd. rewrite (Hgiven_default Hd), default_output_csv in Ecsv.
      discriminate.
    + intros f Hf Hne. rewrite (Hgiven_f f Hf Hne) in *. split; [|auto].
      intro Hyes. cbn [endswith_any existsb] in Hyes, Exl.
      rewrite Ecsv in Hyes. simpl in Hyes. congruence.
Qed.

Lemma X12_output_file_witness :
  exists w',
    process_all_msisdns flaky_server stack_model string (fun s => s)
      (one_table "msisdn" ["994501234567"]) no_file "20240101_000000"
      writable example_extractor "ids.csv" "msisdn" ["individualId"]
      (Some "results.XLSX") fresh_world = (Ok tt, w')
    /\ exists how path rows,
        written w' = written fresh_world ++ [(how, path, rows)]
        /\ (how = to_csv -> endswith (lower path) ".csv" = true)
        /\ (how = to_excel ->
            endswith_any (lower path) [".xlsx"; ".xls"] = true)
        /\ (Some "results.XLSX" = None
            \/ Some "results.XLSX" = Some EmptyString ->
            how = to_csv /\ path = default_output "20240101_000000")
        /\ (forall f,
              Some "results.XLSX" = Some f -> f <> EmptyString ->
              (endswith_any (lower f) [".csv"; ".xlsx"; ".xls"] = true ->
               path = f)
              /\ (endswith_any (lower f) [".csv"; ".xlsx"; ".xls"] = false ->
                  how = to_csv /\ path = (f ++ ".csv")%string)).
Proof.
  eexists. split; [vm_compute; reflexivity|].
  apply (X12_output_file flaky_server stack_model string (fun s => s)
           (one_table "msisdn" ["994501234567"]) no_file "20240101_000000"
           writable example_extractor "ids.csv" "msisdn" ["individualId"]
           (Some "results.XLSX") fresh_world).
  vm_compute. reflexivity.
Defined.

(** X13: what ends a run with an exception.  A failure of the reader ends
    it with that very exception before any request is sent and before
    anything is written.  An exception that escapes [make_request] for one
    identifier ends it with that exception, after the requests sent until
    then, and no table is written: the rows of the identifiers before it
    are lost.  A failure of the writer ends it with the writer's exception
    after the requests of the batch, and no table counts as written. *)
Theorem X13_fatal_errors
  (server : list Request -> Request -> wire_outcome) (stack : HttpStack)
  (Cell : Type) (astype_str : Cell -> ustr)
  (read_csv read_excel : string -> result (DataFrame Cell))
  (timestamp : string) (disk : writer -> string -> result unit)
  (self : MSISDNRequestExtractor) (input_file msisdn_column : string)
  (keys : list string) (output_file : option string) (w : World) :
  (forall e,
      read_msisdns Cell astype_str read_csv read_excel input_file msisdn_column
      = Raise e ->
      process_all_msisdns server stack Cell astype_str read_csv read_excel
        timestamp disk self input_file msisdn_column keys output_file w
      = (Raise e, w))
  /\ (forall e msisdns w1,
         read_msisdns Cell astype_str read_csv read_excel input_file
           msisdn_column = Ok msisdns ->
         process_loop server stack self keys msisdns [] w = (Raise e, w1) ->
         process_all_msisdns server stack Cell astype_str read_csv read_excel
           timestamp disk self input_file msisdn_column keys output_file w
         = (Raise e, w1)
         /\ written w1 = written w)
  /\ (forall e msisdns rows w1,
         read_msisdns Cell astype_str read_csv read_excel input_file
           msisdn_column = Ok msisdns ->
         process_loop server stack self keys msisdns [] w = (Ok rows, w1) ->
         (forall how path, disk how path = Raise e) ->
         process_all_msisdns server stack Cell astype_str read_csv read_excel
           timestamp disk self input_file msisdn_column keys output_file w
         = (Raise e, w1)
         /\ written w1 = written w).
Proof.
  split; [|split].
  - intros e He. unfold process_all_msisdns, bind, lift. rewrite He.
    reflexivity.
  - intros e msisdns w1 Hread Hloop.
    destruct (process_loop_outcome server stack self keys msisdns [] w)
      as [r [w2 [Hloop' [Hw _]]]].
    rewrite Hloop in Hloop'. injection Hloop' as _ <-.
    split; [|exact Hw].
    unfold process_all_msisdns, bind, lift. rewrite Hread, Hloop.
    reflexivity.
  - intros e msisdns rows w1 Hread Hloop Hdisk.
    destruct (process_loop_outcome server stack self keys msisdns [] w)
      as [r [w2 [Hloop' [Hw _]]]].
    rewrite Hloop in Hloop'. injection Hloop' as _ <-.
    split; [|exact Hw].
    unfold process_all_msisdns, bind, lift. rewrite Hread, Hloop.
    assert (Hwrite : forall how path,
      write disk how path rows w1 = (Raise e, w1)).
    { intros how path. unfold write, bind, lift. now rewrite Hdisk. }
    repeat match goal with
           | |- (if ?c then _ else _) _ = _ => destruct c
           end; apply Hwrite.
Qed.

(** A disk that takes nothing. *)
Definition read_only : writer -> string -> result unit :=
  fun _ _ => Raise (OSError "Permission denied").

(** An extractor on a plain [http] URL. *)
Definition plain_extractor : MSISDNRequestExtractor :=
  {| base_url := "http://example.com/api"; headers := default_headers;
     session := _configure_session |}.

Lemma X13_fatal_errors_witness :
  (read_msisdns string (fun s => s) (one_table "phone" ["994501234567"])
     no_file "ids.csv" "msisdn"
   = Raise (ValueError "Column 'msisdn' not found in the file")
   /\ process_all_msisdns flaky_server stack_model string (fun s => s)
        (one_table "phone" ["994501234567"]) no_file "20240101_000000"
        writable example_extractor "ids.csv" "msisdn" ["individualId"] None
        fresh_world
      = (Raise (ValueError "Column 'msisdn' not found in the file"),
         fresh_world))
  /\ (read_msisdns ustr (fun s => s)
        (fun _ => Ok [("msisdn", [ustr_of_string "994501234567";
                                   arabic_indic_123])])
        (fun _ => Raise (OSError "No such file or directory"))
        "ids.csv" "msisdn"
      = Ok [ustr_of_string "994501234567"; arabic_indic_123]
      /\ exists req,
          process_loop steady_server stack_model plain_extractor
            ["individualId"]
            [ustr_of_string "994501234567"; arabic_indic_123] []
            fresh_world
          = (Raise UnicodeEncodeError,
             {| wire := [req]; slept := []; written := [] |})
          /\ process_all_msisdns steady_server stack_model ustr (fun s => s)
               (fun _ => Ok [("msisdn", [ustr_of_string "994501234567";
                                          arabic_indic_123])])
               (fun _ => Raise (OSError "No such file or directory"))
               "20240101_000000" writable plain_extractor "ids.csv" "msisdn"
               ["individualId"] None fresh_world
             = (Raise UnicodeEncodeError,
                {| wire := [req]; slept := []; written := [] |}))
  /\ (read_msisdns string (fun s => s) (one_table "msisdn" ["994501234567"])
        no_file "ids.csv" "msisdn" = Ok (ustrs ["994501234567"])
      /\ (forall how path,
             read_only how path = Raise (OSError "Permission denied"))
      /\ exists rows w1,
          process_loop flaky_server stack_model example_extractor
            ["individualId"] (ustrs ["994501234567"]) [] fresh_world
          = (Ok rows, w1)
          /\ process_all_msisdns flaky_server stack_model string (fun s => s)
               (one_table "msisdn" ["994501234567"]) no_file
               "20240101_000000" read_only example_extractor "ids.csv"
               "msisdn" ["individualId"] None fresh_world
             = (Raise (OSError "Permission denied"), w1)
          /\ written w1 = written fresh_world).
Proof.
  split; [|split].
  - split; [reflexivity|].
    exact (proj1 (X13_fatal_errors flaky_server stack_model string
                    (fun s => s)
                    (one_table "phone" ["994501234567"]) no_file
                    "20240101_000000" writable example_extractor "ids.csv"
                    "msisdn" ["individualId"] None fresh_world) _ eq_refl).
  - split; [reflexivity|]. eexists.
    assert (Hloop :
      process_loop steady_server stack_model plain_extractor
        ["individualId"]
        [ustr_of_string "994501234567"; arabic_indic_123] [] fresh_world
      = (Raise UnicodeEncodeError,
         {| wire :=
              [{| req_method := GET;
                  req_url :=
                    "http://example.com/api?is-personal-details-embedded=true&msisdn=994501234567";
                  req_headers :=
                    merge_headers
                      (headers_for plain_extractor "994501234567");
                  req_verify := false; req_timeout := 30 |}];
            slept := []; written := [] |})).
    { vm_compute. reflexivity. }
    split; [exact Hloop|].
    exact (proj1 (proj1 (proj2 (X13_fatal_errors steady_server stack_model
                    ustr (fun s => s)
                    (fun _ => Ok [("msisdn",
                                   [ustr_of_string "994501234567";
                                    arabic_indic_123])])
                    (fun _ => Raise (OSError "No such file or directory"))
                    "20240101_000000" writable plain_extractor "ids.csv"
                    "msisdn" ["individualId"] None fresh_world))
             _ _ _ eq_refl Hloop)).
  - split; [reflexivity|]. split; [reflexivity|].
    eexists _, _. split; [vm_compute; reflexivity|].
    exact (proj2 (proj2 (X13_fatal_errors flaky_server stack_model string
                    (fun s => s)
                    (one_table "msisdn" ["994501234567"]) no_file
                    "20240101_000000" read_only example_extractor "ids.csv"
                    "msisdn" ["individualId"] None fresh_world))
             _ _ _ _ eq_refl eq_refl (fun _ _ => eq_refl)).
Defined.

(** ** Rows for arbitrary key paths *)

(** The key paths of [keys] that are not among [seen], each one where it
    occurs first. *)
Fixpoint first_occurrences (seen keys : list string) : list string :=
  match keys with
  | [] => []
  | k :: keys' =>
      if existsb (String.eqb k) seen then first_occurrences seen keys'
      else k :: first_occurrences (k :: seen) keys'
  end.

Lemma existsb_eqb_In k l : existsb (String.eqb k) l = true <-> In k l.
Proof.
  rewrite existsb_exists. split.
  - intros [x [Hx E]]. apply String.eqb_eq in E. now subst.
  - intro H. exists k. split; [exact H | apply String.eqb_refl].
Qed.

Lemma existsb_eqb_not_In k l : existsb (String.eqb k) l = false <-> ~ In k l.
Proof.
  rewrite <- existsb_eqb_In. destruct (existsb _ _); split; intro H;
    try discriminate; try reflexivity; try congruence.
Qed.

(** [d[k] = v] adds the field [k] at the end when it is new, and leaves the
    fields as they are when it is not. *)
Lemma dict_set_fields {V} (d : pydict V) k v :
  map fst (dict_set d k v) =
  if existsb (String.eqb k) (map fst d) then map fst d else map fst d ++ [k].
Proof.
  induction d as [|[k' v'] d IH]; simpl; [reflexivity|].
  rewrite (String.eqb_sym k k').
  destruct (String.eqb k' k); simpl; [reflexivity|].
  rewrite IH. destruct (existsb _ _); reflexivity.
Qed.

Lemma first_occurrences_ext keys : forall seen seen',
  (forall k, In k seen <-> In k seen') ->
  first_occurrences seen keys = first_occurrences seen' keys.
Proof.
  induction keys as [|k keys IH]; simpl; intros seen seen' H; [reflexivity|].
  destruct (existsb (String.eqb k) seen) eqn:E.
  - apply existsb_eqb_In in E. apply H, existsb_eqb_In in E. rewrite E.
    now apply IH.
  - apply existsb_eqb_not_In in E.
    assert (E' : existsb (String.eqb k) seen' = false).
    { apply existsb_eqb_not_In. intro Hin. apply E, H, Hin. }
    rewrite E'. f_equal. apply IH. intro x. simpl. now rewrite H.
Qed.

Lemma first_occurrences_In keys : forall seen k,
  In k (first_occurrences seen keys) <-> In k keys /\ ~ In k seen.
Proof.
  induction keys as [|k0 keys IH]; simpl; intros seen k; [tauto|].
  destruct (existsb (String.eqb k0) seen) eqn:E.
  - apply existsb_eqb_In in E. rewrite IH. split; [tauto|].
    intros [[<-|Hin] Hni]; [contradiction | tauto].
  - apply existsb_eqb_not_In in E. simpl. rewrite IH. simpl. split.
    + intros [<-|[Hin Hni]]; tauto.
    + intros [[<-|Hin] Hni]; [tauto|].
      destruct (string_dec k0 k) as [<-|Hne]; tauto.
Qed.

Lemma first_occurrences_NoDup keys : forall seen,
  NoDup (first_occurrences seen keys).
Proof.
  induction keys as [|k keys IH]; simpl; intro seen; [constructor|].
  destruct (existsb (String.eqb k) seen); [apply IH|].
  constructor; [|apply IH].
  rewrite first_occurrences_In. simpl. tauto.
Qed.

Lemma first_occurrences_length keys : forall seen,
  length (first_occurrences seen keys) <= length keys.
Proof.
  induction keys as [|k keys IH]; simpl; intro seen; [lia|].
  destruct (existsb (String.eqb k) seen); simpl.
  - specialize (IH seen). lia.
  - specialize (IH (k :: seen)). lia.
Qed.

Lemma fill_row_fields f keys : forall row row',
  fill_row f keys row = Ok row' ->
  map fst row' = map fst row ++ first_occurrences (map fst row) keys.
Proof.
  induction keys as [|k keys IH]; simpl; intros row row' H.
  - injection H as <-. now rewrite app_nil_r.
  - destruct (f k) as [v|e]; simpl in H; [|discriminate].
    apply IH in H. rewrite H, dict_set_fields.
    destruct (existsb (String.eqb k) (map fst row)); [reflexivity|].
    rewrite <- app_assoc. simpl. do 2 f_equal.
    apply first_occurrences_ext. intro x. rewrite in_app_iff. simpl. tauto.
Qed.

(** X14: whatever the key paths, repeated or not, [extract_data] returns a
    row whose field names are [msisdn] followed by the other requested key
    paths, each once, in the order of their first occurrence: no field name
    is repeated and the row has at most [1 + len(keys)] fields.  Every
    requested key path is a field of the row and holds what the walk of the
    response gives for it ([None] for a falsy response); the field
    [msisdn] holds the identifier unless [msisdn] is itself requested. *)
Theorem X14_row_fields json_data keys msisdn :
  exists row,
    extract_data json_data keys msisdn = Ok row
    /\ map fst row = "msisdn" :: first_occurrences ["msisdn"] keys
    /\ NoDup (map fst row)
    /\ length row <= 1 + length keys
    /\ (forall k, In k keys ->
                  dict_lookup row k = Some (extracted json_data k))
    /\ (In "msisdn" keys \/ dict_lookup row "msisdn" = Some (VStr msisdn)).
Proof.
  destruct (extract_data_total json_data keys msisdn) as [row Hrow].
  exists row. split; [exact Hrow|].
  assert (Hfields : map fst row = "msisdn" :: first_occurrences ["msisdn"] keys).
  { unfold extract_data in Hrow.
    destruct (truthy json_data); apply fill_row_fields in Hrow; exact Hrow. }
  split; [exact Hfields|]. split; [|split; [|split]].
  - rewrite Hfields. constructor; [|apply first_occurrences_NoDup].
    rewrite first_occurrences_In. simpl. tauto.
  - rewrite <- (length_map fst row), Hfields. simpl.
    pose proof (first_occurrences_length keys ["msisdn"]). lia.
  - intros k Hk. unfold extract_data in Hrow. unfold extracted.
    destruct (truthy json_data);
      destruct (fill_row_lookup _ _ _ _ Hrow) as [Hin _];
      destruct (Hin k Hk) as [v [Hv Hl]]; rewrite Hl.
    + now rewrite Hv.
    + now injection Hv as <-.
  - destruct (in_dec string_dec "msisdn" keys) as [Hi|Hni]; [now left|].
    right. exact (extract_data_msisdn _ _ _ _ Hrow Hni).
Qed.

(** ** Key paths through objects *)

Lemma split_on_nonempty sep s : split_on sep s <> [].
Proof.
  destruct s as [|c s]; simpl; [discriminate|].
  destruct (Ascii.eqb c sep); [discriminate|].
  destruct (split_on sep s); discriminate.
Qed.

(** A segment without the separator is split off whole. *)
Lemma split_on_segment sep p rest :
  mem_char sep p = false ->
  split_on sep p = [p]
  /\ split_on sep (p ++ String sep rest) = p :: split_on sep rest.
Proof.
  induction p as [|c p IH]; simpl.
  - intros _. rewrite Ascii.eqb_refl. auto.
  - rewrite (Ascii.eqb_sym sep c).
    destruct (Ascii.eqb c sep); simpl; [discriminate|].
    intro H. destruct (IH H) as [-> ->]. auto.
Qed.

(** X15: on an object, a key path made of one segment is the object's
    [get] of that segment, and a key path [p.rest] is the key path [rest]
    taken from the value under [p]; hence a key that is missing from an
    object, at whatever depth, makes the whole path [None].  The empty
    string is a segment like any other.  On a response that is neither an
    object nor an array, every key path is [None], the empty one
    included. *)
Theorem X15_object_segment :
  (forall d p,
      mem_char "." p = false ->
      get_nested_value (VDict d) p = Ok (dict_get d p))
  /\ (forall d p rest,
         mem_char "." p = false ->
         get_nested_value (VDict d) (p ++ "." ++ rest)
         = get_nested_value (dict_get d p) rest
         /\ (dict_lookup d p = None ->
             get_nested_value (VDict d) (p ++ "." ++ rest) = Ok VNone))
  /\ (forall v key_path,
         is_scalar v = true -> get_nested_value v key_path = Ok VNone).
Proof.
  split; [|split].
  - intros d p Hp. unfold get_nested_value.
    rewrite (proj1 (split_on_segment "." p EmptyString Hp)). reflexivity.
  - intros d p rest Hp.
    assert (E : get_nested_value (VDict d) (p ++ "." ++ rest)
                = get_nested_value (dict_get d p) rest).
    { unfold get_nested_value.
      change ("." ++ rest)%string with (String "." rest).
      rewrite (proj2 (split_on_segment "." p rest Hp)). reflexivity. }
    split; [exact E|].
    intro Habs. rewrite E. unfold get_nested_value, dict_get.
    rewrite Habs, walk_None. reflexivity.
  - intros v key_path Hv. unfold get_nested_value.
    destruct (split_on "." key_path) as [|seg rest] eqn:E.
    + now apply split_on_nonempty in E.
    + rewrite (walk_scalar _ _ _ Hv). reflexivity.
Qed.

Lemma X15_object_segment_witness :
  mem_char "." "document" = false
  /\ get_nested_value
       (VDict [("document", VDict [("pin", VStr "7ABC123")])]) "document.pin"
     = get_nested_value (VDict [("pin", VStr "7ABC123")]) "pin"
  /\ get_nested_value (VDict [("individualId", VInt 7)]) "document.pin"
     = Ok VNone.
Proof.
  split; [reflexivity|]. split.
  - exact (proj1 (proj1 (proj2 X15_object_segment)
                    [("document", VDict [("pin", VStr "7ABC123")])]
                    "document" "pin" eq_refl)).
  - exact (proj2 (proj1 (proj2 X15_object_segment)
                    [("individualId", VInt 7)] "document" "pin" eq_refl)
             eq_refl).
Defined.

(** ** The entry point *)

(** With an output name that ends in [.csv], the run is: read, loop, write
    with [to_csv] under that very name. *)
Lemma process_all_msisdns_csv
  (server : list Request -> Request -> wire_outcome) (stack : HttpStack)
  (Cell : Type) (astype_str : Cell -> ustr)
  (read_csv read_excel : string -> result (DataFrame Cell))
  (timestamp : string) (disk : writer -> string -> result unit)
  (self : MSISDNRequestExtractor) (input_file msisdn_column : string)
  (keys : list string) (f : string) (w : World) :
  str_falsy f = false ->
  endswith (lower f) ".csv" = true ->
  process_all_msisdns server stack Cell astype_str read_csv read_excel
    timestamp disk self input_file msisdn_column keys (Some f) w
  = (msisdns <- lift (read_msisdns Cell astype_str read_csv read_excel
                        input_file msisdn_column) ;;
     results <- process_loop server stack self keys msisdns [] ;;
     write disk to_csv f results) w.
Proof.
  intros Hf Hcsv. unfold process_all_msisdns. cbv zeta.
  rewrite Hf, Hcsv. reflexivity.
Qed.

Definition result_path : string :=
  "C:\Users\smammadzada\Desktop\result_lwt.csv".

Definition main_columns : list string :=
  ["msisdn"; "individualId"; "accounts.accountInternalId"; "document.pin"].

(** X16: [main] hands no [Exception] on to its caller: whether the base URL
    is refused, the input file cannot be read or holds no identifier, a
    fetch raises, or the table cannot be written, it returns normally (only
    an exception outside [Exception], raised by the platform, passes
    through).  It writes nothing
    at all or one table, with [to_csv], at the result path written into it,
    each row of which has the columns [msisdn], [individualId],
    [accounts.accountInternalId], [document.pin] in this order. *)
Theorem X16_main_swallows
  (server : list Request -> Request -> wire_outcome) (stack : HttpStack)
  (urlparse : string -> result ParseResult)
  (Cell : Type) (astype_str : Cell -> ustr)
  (read_csv read_excel : string -> result (DataFrame Cell))
  (timestamp : string) (disk : writer -> string -> result unit) (w : World) :
  exists r w',
    main server stack urlparse Cell astype_str read_csv read_excel timestamp
      disk w
    = (r, w')
    /\ (r = Ok tt \/ r = Raise KeyboardInterrupt)
    /\ (written w' = written w
        \/ exists rows,
             r = Ok tt
             /\ written w' = written w ++ [(to_csv, result_path, rows)]
             /\ Forall (fun row => map fst row = main_columns) rows).
Proof.
  assert (Hhandler : forall e w1,
    (if is_Exception e then ret tt else raise e) w1 = (Ok tt, w1)
    \/ (if is_Exception e then ret tt else @raise unit e) w1
       = (Raise KeyboardInterrupt, w1)).
  { intros e w1. destruct e; simpl; auto. }
  unfold main, try_except. cbv zeta. unfold bind at 1.
  unfold __init__ at 1. unfold bind at 1. unfold lift at 1.
  destruct (_validate_url urlparse _) as [url|e].
  - cbv beta iota. unfold ret at 1. cbv beta iota.
    rewrite process_all_msisdns_csv by reflexivity.
    unfold bind at 1. unfold lift at 1.
    destruct (read_msisdns _ _ _ _ _ _) as [msisdns|e].
    + set (self := {| base_url := url; headers := default_headers;
                      session := _configure_session |}).
      set (keys := ["individualId"; "accounts.accountInternalId";
                    "document.pin"]).
      destruct (process_loop_outcome server stack self keys msisdns [] w)
        as [r [w1 [Hloop [Hw1 Hr]]]].
      unfold bind at 1. rewrite Hloop.
      destruct r as [rows'|e].
      2:{ destruct (Hhandler e w1) as [H|H]; rewrite H;
            eexists _, _; (split; [reflexivity|]); auto. }
      destruct Hr as [rows [-> Hrows]]. simpl in Hloop |- *.
      unfold write, bind, lift.
      destruct (disk to_csv _) as [[]|e].
      * eexists _, _. split; [reflexivity|]. split; [now left|].
        right. exists rows. split; [reflexivity|]. simpl. rewrite Hw1.
        split; [reflexivity|].
        clear Hloop. induction Hrows as [|m row ms rows' Hrow _ IH];
          constructor; [|exact IH].
        destruct Hrow as [json_data [wa [wb [_ [Hrow _]]]]].
        unfold keys in Hrow. rewrite extract_data_fresh in Hrow.
        -- injection Hrow as <-. reflexivity.
        -- repeat constructor; simpl; intuition discriminate.
      * destruct (Hhandler e w1) as [H|H]; rewrite H;
          eexists _, _; (split; [reflexivity|]); auto.
    + destruct (Hhandler e w) as [H|H]; rewrite H;
        eexists _, _; (split; [reflexivity|]); auto.
  - destruct (Hhandler e w) as [H|H]; rewrite H;
      eexists _, _; (split; [reflexivity|]); auto.
Qed.

(** ** From construction to the wire *)





